(** * Contract extraction pipeline: a shallow embedding of [knowledge-graph.py]

    The development follows the Python source function by function:
    [is_valid_date], [add_duration_to_date], [extract_contract_structured],
    [process_contract] and [process_all].  Library calls the source relies on
    ([datetime.strptime], [strftime], [json.loads], [isodate.parse_duration],
    [str.find], slicing, [threading.Semaphore]) are embedded next to the
    function that uses them. *)

From Stdlib Require Import ZArith NArith List String Ascii Bool Lia.
From Stdlib Require Import DecimalString.
Import ListNotations.

Set Implicit Arguments.
Set Warnings "-register-all".

(** ** Python strings

    A Python [str] is a sequence of Unicode code points. *)

Definition pystr := list N.

Definition py (s : string) : pystr := map N_of_ascii (list_ascii_of_string s).

(** [pyq] reads a literal in which the apostrophe stands for the double
    quote, the way JSON text is usually quoted inside Python source. *)
Definition pyq (s : string) : pystr :=
  map (fun c => if N.eqb c 39 then 34%N else c) (py s).

Fixpoint str_eqb (a b : pystr) : bool :=
  match a, b with
  | [], [] => true
  | x :: a', y :: b' => N.eqb x y && str_eqb a' b'
  | _, _ => false
  end.

(** Character classes of the regular expressions used below. *)
Definition in_range (lo hi c : N) : bool := N.leb lo c && N.leb c hi.

Definition ascii_digit (c : N) : bool := in_range 48 57 c.

(** The code points of general category Nd come in runs of ten, one run per
    script, each starting at that script's zero.  [re]'s [\d] on a [str]
    pattern and [int()] both accept exactly these (table of the Unicode
    database shipped with CPython 3.11). *)
Definition decimal_zeros : list N :=
  [48; 1632; 1776; 1984; 2406; 2534; 2662; 2790; 2918; 3046; 3174; 3302;
   3430; 3558; 3664; 3792; 3872; 4160; 4240; 6112; 6160; 6470; 6608; 6784;
   6800; 6992; 7088; 7232; 7248; 42528; 43216; 43264; 43472; 43504; 43600;
   44016; 65296; 66720; 68912; 69734; 69872; 69942; 70096; 70384; 70736;
   70864; 71248; 71360; 71472; 71904; 72016; 72784; 73040; 73120; 92768;
   92864; 93008; 120782; 120792; 120802; 120812; 120822; 123200; 123632;
   125264; 130032]%N.

Fixpoint decimal_in (zeros : list N) (c : N) : option Z :=
  match zeros with
  | [] => None
  | z :: rest =>
      if in_range z (z + 9) c then Some (Z.of_N (c - z)) else decimal_in rest c
  end.

Definition decimal_value (c : N) : option Z := decimal_in decimal_zeros c.

Definition is_decimal (c : N) : bool :=
  match decimal_value c with Some _ => true | None => false end.

(** ** Exceptions and results *)

Inductive exn_class :=
| TypeError | ValueError | JSONDecodeError | OverflowError | RecursionError
| RuntimeError | ISO8601Error | RequestException
| KeyboardInterrupt | SystemExit.

(** [except Exception] catches every class except the two that derive from
    [BaseException] only; a bare [except:] catches everything. *)
Definition is_Exception (c : exn_class) : bool :=
  match c with
  | KeyboardInterrupt | SystemExit => false
  | _ => true
  end.

Record exn := Exn { exn_class_of : exn_class; exn_str : pystr }.

Inductive result (A : Type) :=
| Ok (a : A)
| Raise (e : exn).
Arguments Ok {A} a.
Arguments Raise {A} e.

Definition bind {A B} (r : result A) (k : A -> result B) : result B :=
  match r with
  | Ok a => k a
  | Raise e => Raise e
  end.

Declare Scope py_scope.
Delimit Scope py_scope with py.
Notation "x <- r ;; k" := (bind r (fun x => k))
  (at level 61, r at next level, right associativity) : py_scope.
Notation "r ;;; k" := (bind r (fun _ => k))
  (at level 61, right associativity) : py_scope.
Open Scope py_scope.

(** [try: body / except Exception as e: handler e]. *)
Definition try_except_Exception {A} (body : result A)
    (handler : exn -> result A) : result A :=
  match body with
  | Ok a => Ok a
  | Raise e => if is_Exception (exn_class_of e) then handler e else Raise e
  end.

(** [try: body / except: handler]. *)
Definition try_except_all {A} (body : result A) (handler : result A)
    : result A :=
  match body with
  | Ok a => Ok a
  | Raise _ => handler
  end.

(** ** Python values, as [json.loads] produces them *)

(** A float is kept as the decimal number it was read from (the binary64
    rounding is not applied, and the sign of a zero is not kept); the
    pipeline only ever asks whether it is zero. *)
Inductive pyfloat :=
| FNaN
| FInfinity (negative : bool)
| FDecimal (mantissa exponent : Z).   (* read from mantissa * 10^exponent *)

Inductive pyval :=
| PyNone
| PyBool (b : bool)
| PyInt (z : Z)
| PyFloat (f : pyfloat)
| PyStr (s : pystr)
| PyList (l : list pyval)
| PyDict (d : list (pystr * pyval)).

(** A [dict] keeps its keys in insertion order; assigning to an existing key
    replaces the value in place. *)
Definition pydict := list (pystr * pyval).

Fixpoint dict_lookup (d : pydict) (k : pystr) : option pyval :=
  match d with
  | [] => None
  | (k', v) :: d' => if str_eqb k' k then Some v else dict_lookup d' k
  end.

(** [k in d] *)
Definition dict_contains (d : pydict) (k : pystr) : bool :=
  match dict_lookup d k with Some _ => true | None => false end.

(** [d.get(k)] *)
Definition dict_get (d : pydict) (k : pystr) : pyval :=
  match dict_lookup d k with Some v => v | None => PyNone end.

(** [d[k] = v] *)
Fixpoint dict_set (d : pydict) (k : pystr) (v : pyval) : pydict :=
  match d with
  | [] => [(k, v)]
  | (k', v') :: d' =>
      if str_eqb k' k then (k', v) :: d' else (k', v') :: dict_set d' k v
  end.

(** ** Regular expressions

    The fragment of [re] that the patterns of [_strptime] and [isodate] are
    written in.  [rmatch r st] lists the states in which a match of [r]
    started in [st] can end, in the order in which a backtracking matcher
    tries them (leftmost alternative first, greedy repetition longest
    first); [re.match] returns the first one. *)

Record mstate := MState {
  m_pos : nat;                        (* index of the next character *)
  m_prev : option N;                  (* the character before it *)
  m_rest : pystr;                     (* the text from there on *)
  m_groups : list (string * pystr)    (* named groups matched so far *)
}.

Inductive regex :=
| Eps
| Cls (p : N -> bool)                 (* one character of a class *)
| Cat (r1 r2 : regex)
| Alt (r1 r2 : regex)                 (* r1|r2 *)
| Opt (r : regex)                     (* r? *)
| Star (p : N -> bool)                (* [class]* *)
| Grp (name : string) (r : regex)     (* (?P<name>r) *)
| NotWordBoundary                     (* (?!\b) *)
| EndOfString.                        (* $ without MULTILINE *)

Definition Lit (c : N) : regex := Cls (N.eqb c).
Definition Plus (p : N -> bool) : regex := Cat (Cls p) (Star p).

(** Word characters, ASCII part: [A-Za-z0-9_]. *)
Definition is_word (c : N) : bool :=
  in_range 48 57 c || in_range 65 90 c || in_range 97 122 c || N.eqb c 95.

Definition word_before (st : mstate) : bool :=
  match m_prev st with Some c => is_word c | None => false end.

Definition word_after (st : mstate) : bool :=
  match m_rest st with c :: _ => is_word c | [] => false end.

Fixpoint star_class (p : N -> bool) (pos : nat) (prev : option N)
    (rest : pystr) (g : list (string * pystr)) : list mstate :=
  match rest with
  | c :: t =>
      if p c then star_class p (S pos) (Some c) t g ++ [MState pos prev rest g]
      else [MState pos prev rest g]
  | [] => [MState pos prev rest g]
  end.

Fixpoint rmatch (r : regex) (st : mstate) : list mstate :=
  match r with
  | Eps => [st]
  | Cls p =>
      match m_rest st with
      | c :: t =>
          if p c then [MState (S (m_pos st)) (Some c) t (m_groups st)] else []
      | [] => []
      end
  | Cat r1 r2 => flat_map (rmatch r2) (rmatch r1 st)
  | Alt r1 r2 => rmatch r1 st ++ rmatch r2 st
  | Opt r1 => rmatch r1 st ++ [st]
  | Star p => star_class p (m_pos st) (m_prev st) (m_rest st) (m_groups st)
  | Grp name r1 =>
      map (fun st' =>
             MState (m_pos st') (m_prev st') (m_rest st')
               ((name, firstn (m_pos st' - m_pos st) (m_rest st))
                  :: m_groups st'))
          (rmatch r1 st)
  | NotWordBoundary =>
      if Bool.eqb (word_before st) (word_after st) then [st] else []
  | EndOfString =>
      match m_rest st with
      | [] => [st]
      | [10%N] => [st]
      | _ => []
      end
  end.

(** [pattern.match(s)] *)
Definition re_match (r : regex) (s : pystr) : option mstate :=
  hd_error (rmatch r (MState 0 None s [])).

Fixpoint group (g : list (string * pystr)) (name : string) : option pystr :=
  match g with
  | [] => None
  | (n, v) :: g' => if String.eqb n name then Some v else group g' name
  end.

(** ** Calendar dates ([datetime]) *)

Definition is_leap (y : Z) : bool :=
  (y mod 4 =? 0)%Z && (negb (y mod 100 =? 0)%Z || (y mod 400 =? 0)%Z).

Definition days_in_month (y m : Z) : Z :=
  (if (m =? 2) then (if is_leap y then 29 else 28)
   else if (m =? 4) || (m =? 6) || (m =? 9) || (m =? 11) then 30
   else 31)%Z.

(** A [datetime]; [dt_us] counts the microseconds since midnight. *)
Record datetime := DateTime {
  dt_year : Z; dt_month : Z; dt_day : Z; dt_us : Z
}.

Definition MINYEAR : Z := 1.
Definition MAXYEAR : Z := 9999.

Definition date_fields_ok (y m d : Z) : bool :=
  ((MINYEAR <=? y) && (y <=? MAXYEAR) && (1 <=? m) && (m <=? 12)
   && (1 <=? d) && (d <=? days_in_month y m))%Z.

Definition datetime_ok (t : datetime) : bool :=
  date_fields_ok (dt_year t) (dt_month t) (dt_day t)
  && (0 <=? dt_us t)%Z && (dt_us t <? 86400000000)%Z.

(** The text of an exception that the program swallows is never observed;
    such messages are abbreviated. *)
Definition verr (msg : string) : exn := Exn ValueError (py msg).

(** [_check_date_fields] *)
Definition check_date_fields (y m d : Z) : result unit :=
  if negb ((MINYEAR <=? y) && (y <=? MAXYEAR))%Z
  then Raise (verr "year is out of range")
  else if negb ((1 <=? m) && (m <=? 12))%Z
  then Raise (verr "month must be in 1..12")
  else if negb ((1 <=? d) && (d <=? days_in_month y m))%Z
  then Raise (verr "day is out of range for month")
  else Ok tt.

(** [datetime(year, month, day)] *)
Definition datetime_new (y m d : Z) : result datetime :=
  check_date_fields y m d ;;; Ok (DateTime y m d 0).

(** ** [datetime.strptime(s, '%Y-%m-%d')] *)

(** [int(text)] for the text of a regex group: decimal digits of any script,
    surrounding blanks stripped. *)
Fixpoint int_digits (acc : Z) (s : pystr) : option Z :=
  match s with
  | [] => Some acc
  | c :: t =>
      match decimal_value c with
      | Some v => int_digits (10 * acc + v) t
      | None => None
      end
  end.

Fixpoint lstrip_blank (s : pystr) : pystr :=
  match s with
  | c :: t => if N.eqb c 32 then lstrip_blank t else s
  | [] => []
  end.

Definition py_int (s : pystr) : result Z :=
  match lstrip_blank s with
  | [] => Raise (verr "invalid literal for int()")
  | s' =>
      match int_digits 0 s' with
      | Some z => Ok z
      | None => Raise (verr "invalid literal for int()")
      end
  end.

Definition c_dash : N := 45.

(** [TimeRE]'s entries for the three directives:
    %Y is [(?P<Y>\d\d\d\d)], %m is [(?P<m>1[0-2]|0[1-9]|[1-9])] and
    %d is [(?P<d>3[0-1]|[1-2]\d|0[1-9]|[1-9]| [1-9])]. *)
Definition re_Y : regex :=
  Grp "Y" (Cat (Cls is_decimal)
            (Cat (Cls is_decimal) (Cat (Cls is_decimal) (Cls is_decimal)))).

Definition re_m : regex :=
  Grp "m" (Alt (Cat (Lit 49) (Cls (in_range 48 50)))
            (Alt (Cat (Lit 48) (Cls (in_range 49 57)))
                 (Cls (in_range 49 57)))).

Definition re_d : regex :=
  Grp "d" (Alt (Cat (Lit 51) (Cls (in_range 48 49)))
            (Alt (Cat (Cls (in_range 49 50)) (Cls is_decimal))
            (Alt (Cat (Lit 48) (Cls (in_range 49 57)))
            (Alt (Cls (in_range 49 57))
                 (Cat (Lit 32) (Cls (in_range 49 57))))))).

(** The pattern compiled from the format ['%Y-%m-%d'].  It is compiled
    with IGNORECASE, which changes nothing for digits, hyphen and blank. *)
Definition format_regex : regex :=
  Cat re_Y (Cat (Lit c_dash) (Cat re_m (Cat (Lit c_dash) re_d))).

Definition group_int (st : mstate) (name : string) : result Z :=
  match group (m_groups st) name with
  | Some text => py_int text
  | None => Raise (Exn TypeError (py "int() argument must be a string"))
  end.

Definition strptime (data_string : pyval) : result datetime :=
  match data_string with
  | PyStr s =>
      match re_match format_regex s with
      | None => Raise (verr "time data does not match format")
      | Some found =>
          if negb (Nat.eqb (List.length s) (m_pos found))
          then Raise (verr "unconverted data remains")
          else
            year <- group_int found "Y" ;;
            month <- group_int found "m" ;;
            day <- group_int found "d" ;;
            datetime_new year month day
      end
  | _ => Raise (Exn TypeError (py "strptime() argument 0 must be str"))
  end.

(** [is_valid_date], lines 106-111. *)
Definition is_valid_date (date_string : pyval) : result bool :=
  try_except_all (strptime date_string ;;; Ok true) (Ok false).

(** ** [strftime('%Y-%m-%d')]

    Month and day are written with two digits.  The year is written with
    four digits from 1000 on; below that the C library decides whether
    leading zeros are written ([pad_year]). *)
Definition digit_char (n : Z) : N := (48 + Z.to_N (n mod 10))%N.

Definition strftime_year (pad_year : bool) (y : Z) : pystr :=
  if pad_year || (1000 <=? y)%Z
  then [digit_char (y / 1000); digit_char (y / 100); digit_char (y / 10);
        digit_char y]
  else if (100 <=? y)%Z
  then [digit_char (y / 100); digit_char (y / 10); digit_char y]
  else if (10 <=? y)%Z then [digit_char (y / 10); digit_char y]
  else [digit_char y].

Definition strftime (pad_year : bool) (t : datetime) : pystr :=
  strftime_year pad_year (dt_year t)
    ++ [c_dash; digit_char (dt_month t / 10); digit_char (dt_month t); c_dash;
        digit_char (dt_day t / 10); digit_char (dt_day t)].

(** ** What [strptime] accepts, stated on the text

    The grammar of the pattern above, written out: a year of four decimal
    digits, a month of one or two digits and a day of one or two digits (or
    a blank and a digit), separated by hyphens. *)

Inductive month_text : pystr -> Prop :=
| month_one c : in_range 49 57 c = true -> month_text [c]
| month_zero c : in_range 49 57 c = true -> month_text [48%N; c]
| month_ten c : in_range 48 50 c = true -> month_text [49%N; c].

Inductive day_text : pystr -> Prop :=
| day_one c : in_range 49 57 c = true -> day_text [c]
| day_zero c : in_range 49 57 c = true -> day_text [48%N; c]
| day_blank c : in_range 49 57 c = true -> day_text [32%N; c]
| day_teens a b :
    in_range 49 50 a = true -> is_decimal b = true -> day_text [a; b]
| day_thirty c : in_range 48 49 c = true -> day_text [51%N; c].

Definition year_text (ys : pystr) : Prop :=
  exists a b c d, ys = [a; b; c; d] /\
    is_decimal a = true /\ is_decimal b = true /\
    is_decimal c = true /\ is_decimal d = true.

Definition strptime_date_text (s : pystr) : Prop :=
  exists ys ms ds y m d,
    s = ys ++ c_dash :: ms ++ c_dash :: ds /\
    year_text ys /\ month_text ms /\ day_text ds /\
    py_int ys = Ok y /\ py_int ms = Ok m /\ py_int ds = Ok d /\
    (1 <= y)%Z /\ (d <= days_in_month y m)%Z.

(** The fixed format of the specification, [YYYY-MM-DD]: ten characters,
    ASCII digits, naming a day of the calendar. *)
Definition ascii_number (s : pystr) : Z :=
  fold_left (fun acc c => (10 * acc + (Z.of_N c - 48))%Z) s 0%Z.

Definition is_iso_date_text (s : pystr) : bool :=
  match s with
  | [y1; y2; y3; y4; h1; m1; m2; h2; d1; d2] =>
      forallb ascii_digit [y1; y2; y3; y4; m1; m2; d1; d2]
      && N.eqb h1 c_dash && N.eqb h2 c_dash
      && date_fields_ok (ascii_number [y1; y2; y3; y4])
           (ascii_number [m1; m2]) (ascii_number [d1; d2])
  | _ => false
  end.

(** ** [json.loads]

    The decoder of CPython's [json] package with its default settings
    (strict strings, [NaN] and [Infinity] accepted).  Positions are indices
    into the document, as [JSONDecodeError] reports them. *)

Inductive scan (A : Type) :=
| Scanned (a : A) (idx : nat) (rest : pystr)
| StopIteration (idx : nat)
| DecodeError (msg : string) (pos : nat)
| IntTooLong (digits : nat)
| OutOfFuel.
Arguments Scanned {A} a idx rest.
Arguments StopIteration {A} idx.
Arguments DecodeError {A} msg pos.
Arguments IntTooLong {A} digits.
Arguments OutOfFuel {A}.

Definition is_ws (c : N) : bool :=
  N.eqb c 32 || N.eqb c 9 || N.eqb c 10 || N.eqb c 13.

Fixpoint skip_ws (idx : nat) (s : pystr) : nat * pystr :=
  match s with
  | c :: t => if is_ws c then skip_ws (S idx) t else (idx, s)
  | [] => (idx, [])
  end.

Definition hex_value (c : N) : option N :=
  if in_range 48 57 c then Some (c - 48)%N
  else if in_range 97 102 c then Some (c - 87)%N
  else if in_range 65 70 c then Some (c - 55)%N
  else None.

Definition hex4 (a b c d : N) : option N :=
  match hex_value a, hex_value b, hex_value c, hex_value d with
  | Some x, Some y, Some z, Some w => Some (((x * 16 + y) * 16 + z) * 16 + w)%N
  | _, _, _, _ => None
  end.

Definition simple_escape (c : N) : option N :=
  if N.eqb c 34 then Some 34%N          (* quote *)
  else if N.eqb c 92 then Some 92%N     (* backslash *)
  else if N.eqb c 47 then Some 47%N     (* slash *)
  else if N.eqb c 98 then Some 8%N      (* b *)
  else if N.eqb c 102 then Some 12%N    (* f *)
  else if N.eqb c 110 then Some 10%N    (* n *)
  else if N.eqb c 114 then Some 13%N    (* r *)
  else if N.eqb c 116 then Some 9%N     (* t *)
  else None.

Definition is_high_surrogate (u : N) : bool := in_range 55296 56319 u.
Definition is_low_surrogate (u : N) : bool := in_range 56320 57343 u.
Definition join_surrogates (hi lo : N) : N :=
  (65536 + ((hi - 55296) * 1024 + (lo - 56320)))%N.

(** [scanstring]: [s] is the text after the opening quote, which sits at
    index [begin]; [idx] is the index of the head of [s]. *)
Fixpoint scanstring (begin idx : nat) (s : pystr) (acc : pystr)
    : scan pystr :=
  match s with
  | [] => DecodeError "Unterminated string starting at" begin
  | c :: t =>
      if N.eqb c 34 then Scanned (rev acc) (S idx) t
      else if N.eqb c 92 then
        match t with
        | [] => DecodeError "Unterminated string starting at" begin
        | e :: t1 =>
            if N.eqb e 117 then
              match t1 with
              | h1 :: h2 :: h3 :: h4 :: ((_ :: _) as t2) =>
                  match hex4 h1 h2 h3 h4 with
                  | None => DecodeError "Invalid \uXXXX escape" (S idx)
                  | Some u =>
                      match t2 with
                      | b2 :: u2 :: g1 :: g2 :: g3 :: g4 :: ((_ :: _) as t3) =>
                          if is_high_surrogate u && N.eqb b2 92
                             && N.eqb u2 117
                          then
                            match hex4 g1 g2 g3 g4 with
                            | None =>
                                DecodeError "Invalid \uXXXX escape" (idx + 7)
                            | Some lo =>
                                if is_low_surrogate lo
                                then scanstring begin (idx + 12) t3
                                       (join_surrogates u lo :: acc)
                                else scanstring begin (idx + 6) t2 (u :: acc)
                            end
                          else scanstring begin (idx + 6) t2 (u :: acc)
                      | _ => scanstring begin (idx + 6) t2 (u :: acc)
                      end
                  end
              | _ => DecodeError "Invalid \uXXXX escape" (S idx)
              end
            else
              match simple_escape e with
              | Some c' => scanstring begin (idx + 2) t1 (c' :: acc)
              | None => DecodeError "Invalid \escape" idx
              end
        end
      else if N.leb c 31 then DecodeError "Invalid control character at" idx
      else scanstring begin (S idx) t (c :: acc)
  end.

(** [NUMBER_RE]: an integer part (optional minus, then 0 or a digit 1-9
    followed by digits), an optional fraction (a dot and digits) and an
    optional exponent (e or E, optional sign, digits), with the ASCII
    digits of the C scanner. *)
Definition NUMBER_RE : regex :=
  Cat (Grp "integer"
         (Cat (Opt (Lit 45))
              (Alt (Lit 48) (Cat (Cls (in_range 49 57)) (Star ascii_digit)))))
      (Cat (Opt (Grp "frac" (Cat (Lit 46) (Plus ascii_digit))))
           (Opt (Grp "exp"
                   (Cat (Cls (fun c => N.eqb c 101 || N.eqb c 69))
                        (Cat (Opt (Cls (fun c => N.eqb c 45 || N.eqb c 43)))
                             (Plus ascii_digit)))))).

(** [int(text)] and the pieces of [float(text)] for the text of a number:
    an optional sign and ASCII digits. *)
Definition signed_int (s : pystr) : Z :=
  match s with
  | c :: t =>
      if N.eqb c 45 then (- ascii_number t)%Z
      else if N.eqb c 43 then ascii_number t
      else ascii_number s
  | [] => 0%Z
  end.

Definition int_max_str_digits : nat := 4300.

Definition count_digits (s : pystr) : nat :=
  List.length (filter ascii_digit s).

Definition float_of_parts (integer : pystr) (frac exp : option pystr)
    : pyfloat :=
  let fd := match frac with Some f => tl f | None => [] end in
  let e := match exp with Some x => signed_int (tl x) | None => 0%Z end in
  FDecimal (signed_int (integer ++ fd)) (e - Z.of_nat (List.length fd)).

Definition match_number (idx : nat) (s : pystr) : option (scan pyval) :=
  match hd_error (rmatch NUMBER_RE (MState idx None s [])) with
  | None => None
  | Some m =>
      let g := m_groups m in
      match group g "integer" with
      | None => None
      | Some integer =>
          match group g "frac", group g "exp" with
          | None, None =>
              if Nat.ltb int_max_str_digits (count_digits integer)
              then Some (IntTooLong (count_digits integer))
              else Some (Scanned (PyInt (signed_int integer))
                           (m_pos m) (m_rest m))
          | frac, exp =>
              Some (Scanned (PyFloat (float_of_parts integer frac exp))
                      (m_pos m) (m_rest m))
          end
      end
  end.

Fixpoint starts_with (prefix s : pystr) : option pystr :=
  match prefix, s with
  | [], _ => Some s
  | p :: prefix', c :: s' =>
      if N.eqb p c then starts_with prefix' s' else None
  | _ :: _, [] => None
  end.

Definition scan_word (w : string) (v : pyval) (idx : nat) (s : pystr)
    : option (scan pyval) :=
  match starts_with (py w) s with
  | Some rest => Some (Scanned v (idx + String.length w) rest)
  | None => None
  end.

Fixpoint first_of (A : Type) (l : list (option A)) (default : A) : A :=
  match l with
  | [] => default
  | Some a :: _ => a
  | None :: l' => first_of l' default
  end.

(** The branches of [_scan_once] other than strings, objects and arrays. *)
Definition scan_constant (idx : nat) (s : pystr) : scan pyval :=
  first_of
    [scan_word "null" PyNone idx s;
     scan_word "true" (PyBool true) idx s;
     scan_word "false" (PyBool false) idx s;
     match_number idx s;
     scan_word "NaN" (PyFloat FNaN) idx s;
     scan_word "Infinity" (PyFloat (FInfinity false)) idx s;
     scan_word "-Infinity" (PyFloat (FInfinity true)) idx s]
    (StopIteration idx).

Definition dict_of_pairs (pairs : list (pystr * pyval)) : pydict :=
  fold_left (fun d kv => dict_set d (fst kv) (snd kv)) pairs [].

(** [scan_once], [JSONObject] and [JSONArray].  [object_loop] starts at the
    opening quote of a key and [array_loop] at the start of an element. *)
Fixpoint scan_once (fuel : nat) (idx : nat) (s : pystr) {struct fuel}
    : scan pyval :=
  match fuel with
  | O => OutOfFuel
  | S fuel' =>
      match s with
      | [] => StopIteration idx
      | c :: t =>
          if N.eqb c 34 then
            match scanstring idx (S idx) t [] with
            | Scanned str i r => Scanned (PyStr str) i r
            | StopIteration i => StopIteration i
            | DecodeError m p => DecodeError m p
            | IntTooLong n => IntTooLong n
            | OutOfFuel => OutOfFuel
            end
          else if N.eqb c 123 then
            let '(i, r) := skip_ws (S idx) t in
            match r with
            | c' :: r' =>
                if N.eqb c' 125 then Scanned (PyDict []) (S i) r'
                else if N.eqb c' 34 then object_loop fuel' [] i r
                else DecodeError
                       "Expecting property name enclosed in double quotes" i
            | [] =>
                DecodeError
                  "Expecting property name enclosed in double quotes" i
            end
          else if N.eqb c 91 then
            let '(i, r) := skip_ws (S idx) t in
            match r with
            | c' :: r' =>
                if N.eqb c' 93 then Scanned (PyList []) (S i) r'
                else array_loop fuel' [] i r
            | [] => array_loop fuel' [] i r
            end
          else scan_constant idx s
      end
  end

with object_loop (fuel : nat) (pairs : list (pystr * pyval)) (idx : nat)
    (s : pystr) {struct fuel} : scan pyval :=
  match fuel with
  | O => OutOfFuel
  | S fuel' =>
      match s with
      | [] =>
          DecodeError "Expecting property name enclosed in double quotes" idx
      | q :: t =>
          if negb (N.eqb q 34) then
            DecodeError
              "Expecting property name enclosed in double quotes" idx
          else
            match scanstring idx (S idx) t [] with
            | Scanned key i r =>
                let '(i1, r1) := skip_ws i r in
                match r1 with
                | colon :: r2 =>
                    if negb (N.eqb colon 58) then
                      DecodeError "Expecting ':' delimiter" i1
                    else
                      let '(i3, r3) := skip_ws (S i1) r2 in
                      match scan_once fuel' i3 r3 with
                      | Scanned v i4 r4 =>
                          let pairs' := pairs ++ [(key, v)] in
                          let '(i5, r5) := skip_ws i4 r4 in
                          match r5 with
                          | d :: r6 =>
                              if N.eqb d 125 then
                                Scanned (PyDict (dict_of_pairs pairs'))
                                  (S i5) r6
                              else if N.eqb d 44 then
                                let '(i7, r7) := skip_ws (S i5) r6 in
                                object_loop fuel' pairs' i7 r7
                              else DecodeError "Expecting ',' delimiter" i5
                          | [] => DecodeError "Expecting ',' delimiter" i5
                          end
                      | StopIteration i => DecodeError "Expecting value" i
                      | other => other
                      end
                | [] => DecodeError "Expecting ':' delimiter" i1
                end
            | StopIteration i => StopIteration i
            | DecodeError m p => DecodeError m p
            | IntTooLong n => IntTooLong n
            | OutOfFuel => OutOfFuel
            end
      end
  end

with array_loop (fuel : nat) (items : list pyval) (idx : nat) (s : pystr)
    {struct fuel} : scan pyval :=
  match fuel with
  | O => OutOfFuel
  | S fuel' =>
      match scan_once fuel' idx s with
      | Scanned v i r =>
          let items' := items ++ [v] in
          let '(i1, r1) := skip_ws i r in
          match r1 with
          | d :: r2 =>
              if N.eqb d 93 then Scanned (PyList items') (S i1) r2
              else if N.eqb d 44 then
                let '(i3, r3) := skip_ws (S i1) r2 in
                array_loop fuel' items' i3 r3
              else DecodeError "Expecting ',' delimiter" i1
          | [] => DecodeError "Expecting ',' delimiter" i1
          end
      | StopIteration i => DecodeError "Expecting value" i
      | other => other
      end
  end.

(** [str(n)] for a natural number. *)
Definition nat_to_str (n : nat) : pystr :=
  py (NilZero.string_of_uint (Nat.to_uint n)).

Fixpoint count_char (c : N) (s : pystr) : nat :=
  match s with
  | [] => O
  | x :: t => (if N.eqb x c then 1 else 0) + count_char c t
  end.

(** [s.find(c)] and [s.rfind(c)] for a one-character needle. *)
Fixpoint find_from (c : N) (i : Z) (s : pystr) : Z :=
  match s with
  | [] => (-1)%Z
  | x :: t => if N.eqb x c then i else find_from c (i + 1)%Z t
  end.

Definition str_find (s : pystr) (c : N) : Z := find_from c 0%Z s.

Fixpoint rfind_from (c : N) (i : Z) (s : pystr) (last : Z) : Z :=
  match s with
  | [] => last
  | x :: t => rfind_from c (i + 1)%Z t (if N.eqb x c then i else last)
  end.

Definition str_rfind (s : pystr) (c : N) : Z := rfind_from c 0%Z s (-1)%Z.

(** [s[a:b]] *)
Definition clamp_index (len i : Z) : Z :=
  (if i <? 0 then Z.max 0 (i + len) else Z.min i len)%Z.

Definition py_slice (s : pystr) (a b : Z) : pystr :=
  let len := Z.of_nat (List.length s) in
  let a' := clamp_index len a in
  let b' := clamp_index len b in
  firstn (Z.to_nat (b' - a')) (skipn (Z.to_nat a') s).

(** [JSONDecodeError(msg, doc, pos)]: the message carries line, column and
    index. *)
Definition decode_error (msg : string) (doc : pystr) (pos : nat) : exn :=
  let before := firstn pos doc in
  let lineno := S (count_char 10 before) in
  let colno := (Z.of_nat pos - str_rfind before 10)%Z in
  Exn JSONDecodeError
    (py msg ++ py ": line " ++ nat_to_str lineno ++ py " column "
       ++ nat_to_str (Z.to_nat colno) ++ py " (char " ++ nat_to_str pos
       ++ py ")").

Definition int_limit_error (digits : nat) : exn :=
  Exn ValueError
    (py "Exceeds the limit (" ++ nat_to_str int_max_str_digits
       ++ py " digits) for integer string conversion: value has "
       ++ nat_to_str digits
       ++ py " digits; use sys.set_int_max_str_digits() to increase the limit").

Definition recursion_error : exn :=
  Exn RecursionError
    (py "maximum recursion depth exceeded while decoding a JSON document").

Definition json_loads (s : pystr) : result pyval :=
  match s with
  | 65279%N :: _ =>
      Raise (decode_error "Unexpected UTF-8 BOM (decode using utf-8-sig)" s 0)
  | _ =>
      let '(i, r) := skip_ws 0 s in
      match scan_once (S (2 * List.length s)) i r with
      | Scanned v j r' =>
          let '(e, r'') := skip_ws j r' in
          match r'' with
          | [] => Ok v
          | _ :: _ => Raise (decode_error "Extra data" s e)
          end
      | StopIteration i => Raise (decode_error "Expecting value" s i)
      | DecodeError msg pos => Raise (decode_error msg s pos)
      | IntTooLong n => Raise (int_limit_error n)
      | OutOfFuel => Raise recursion_error
      end
  end.

(** ** Truth value testing *)

(** A float read from [m * 10^e] is zero when [m] is, or when the number
    underflows: anything up to half the least subnormal, [2^-1075], rounds
    to zero. *)
Definition float_nonzero (f : pyfloat) : bool :=
  match f with
  | FNaN => true
  | FInfinity _ => true
  | FDecimal m e =>
      negb (m =? 0)%Z
      && ((0 <=? e)%Z || (10 ^ (- e) <? Z.abs m * 2 ^ 1075)%Z)
  end.

Definition truthy (v : pyval) : bool :=
  match v with
  | PyNone => false
  | PyBool b => b
  | PyInt z => negb (z =? 0)%Z
  | PyFloat f => float_nonzero f
  | PyStr s => match s with [] => false | _ :: _ => true end
  | PyList l => match l with [] => false | _ :: _ => true end
  | PyDict d => match d with [] => false | _ :: _ => true end
  end.

(** ** [datetime] arithmetic *)

Definition days_before_year (y : Z) : Z :=
  let y1 := (y - 1)%Z in (y1 * 365 + y1 / 4 - y1 / 100 + y1 / 400)%Z.

Definition DAYS_IN_MONTH : list Z :=
  [-1; 31; 28; 31; 30; 31; 30; 31; 31; 30; 31; 30; 31]%Z.

Definition DAYS_BEFORE_MONTH : list Z :=
  [-1; 0; 31; 59; 90; 120; 151; 181; 212; 243; 273; 304; 334]%Z.

Definition days_before_month (y m : Z) : Z :=
  (nth (Z.to_nat m) DAYS_BEFORE_MONTH 0
   + (if (2 <? m) && is_leap y then 1 else 0))%Z.

Definition ymd2ord (y m d : Z) : Z :=
  (days_before_year y + days_before_month y m + d)%Z.

Definition DI400Y : Z := 146097.
Definition DI100Y : Z := 36524.
Definition DI4Y : Z := 1461.
Definition MAXORDINAL : Z := 3652059.

Definition ord2ymd (ordinal : Z) : Z * Z * Z :=
  let n := (ordinal - 1)%Z in
  let n400 := (n / DI400Y)%Z in
  let n := (n mod DI400Y)%Z in
  let year := (n400 * 400 + 1)%Z in
  let n100 := (n / DI100Y)%Z in
  let n := (n mod DI100Y)%Z in
  let n4 := (n / DI4Y)%Z in
  let n := (n mod DI4Y)%Z in
  let n1 := (n / 365)%Z in
  let n := (n mod 365)%Z in
  let year := (year + n100 * 100 + n4 * 4 + n1)%Z in
  if (n1 =? 4)%Z || (n100 =? 4)%Z then ((year - 1)%Z, 12%Z, 31%Z)
  else
    let leapyear := (n1 =? 3)%Z && (negb (n4 =? 24)%Z || (n100 =? 3)%Z) in
    let month := Z.shiftr (n + 50) 5 in
    let preceding :=
      (nth (Z.to_nat month) DAYS_BEFORE_MONTH 0
       + (if (2 <? month) && leapyear then 1 else 0))%Z in
    if (n <? preceding)%Z then
      let month := (month - 1)%Z in
      let preceding :=
        (preceding
         - (nth (Z.to_nat month) DAYS_IN_MONTH 0
            + (if (month =? 2) && leapyear then 1 else 0)))%Z in
      (year, month, (n - preceding + 1)%Z)
    else (year, month, (n - preceding + 1)%Z).

Definition US_PER_DAY : Z := 86400000000.

Definition overflow (msg : string) : exn := Exn OverflowError (py msg).

(** A [timedelta] is its total number of microseconds; the constructor
    refuses more than 999999999 days either way. *)
Definition timedelta_new (us : Z) : result Z :=
  let days := (us / US_PER_DAY)%Z in
  if (-999999999 <=? days)%Z && (days <=? 999999999)%Z then Ok us
  else Raise (overflow "days; must have magnitude <= 999999999").

(** [datetime.__add__(timedelta)] *)
Definition datetime_add_timedelta (t : datetime) (td : Z) : result datetime :=
  delta <- timedelta_new
             (ymd2ord (dt_year t) (dt_month t) (dt_day t) * US_PER_DAY
              + dt_us t + td)%Z ;;
  let days := (delta / US_PER_DAY)%Z in
  if (0 <? days)%Z && (days <=? MAXORDINAL)%Z then
    let '(y, m, d) := ord2ymd days in
    check_date_fields y m d ;;;
    Ok (DateTime y m d (delta mod US_PER_DAY))
  else Raise (overflow "result out of range").

(** ** [isodate.parse_duration]

    The designator form [PnYnMnWnDTnHnMnS] with whole numbers is embedded
    in full.  A duration written with a decimal fraction, or in the
    alternative [P<date>T<time>] form, goes through [Decimal] and binary
    floating point or through the library's date-time parser; such a
    duration is kept as its text ([LibraryDuration]) and its sum with a
    date is left to the parameter of the pipeline section below. *)

Inductive duration :=
| Timedelta (us : Z)
| Duration (years months : Z) (tdelta : Z)
| LibraryDuration (text : pystr).

Definition period_number (designator : N) : regex :=
  Cat (Plus ascii_digit)
      (Cat (Opt (Cat (Cls (fun c => N.eqb c 44 || N.eqb c 46))
                     (Plus ascii_digit)))
           (Lit designator)).

Definition ISO8601_PERIOD_REGEX : regex :=
  Cat (Opt (Grp "sign" (Cls (fun c => N.eqb c 43 || N.eqb c 45))))
  (Cat (Lit 80)
  (Cat NotWordBoundary
  (Cat (Opt (Grp "years" (period_number 89)))
  (Cat (Opt (Grp "months" (period_number 77)))
  (Cat (Opt (Grp "weeks" (period_number 87)))
  (Cat (Opt (Grp "days" (period_number 68)))
  (Cat (Opt (Cat (Grp "separator" (Lit 84))
            (Cat (Opt (Grp "hours" (period_number 72)))
            (Cat (Opt (Grp "minutes" (period_number 77)))
                 (Opt (Grp "seconds" (period_number 83)))))))
       EndOfString))))))).

(** The digits of a group, its designator dropped; an absent group reads
    as zero. *)
Definition period_field (g : list (string * pystr)) (name : string) : pystr :=
  match group g name with
  | Some text => removelast text
  | None => [48%N]
  end.

Definition has_fraction (text : pystr) : bool :=
  existsb (fun c => N.eqb c 44 || N.eqb c 46) text.

Definition iso_error : exn :=
  Exn ISO8601Error (py "Unable to parse duration string").

Definition parse_duration (datestring : pyval) : result duration :=
  match datestring with
  | PyStr s =>
      match re_match ISO8601_PERIOD_REGEX s with
      | None =>
          match s with
          | 80%N :: _ => Ok (LibraryDuration s)
          | _ => Raise iso_error
          end
      | Some found =>
          let f : string -> pystr := period_field (m_groups found) in
          if existsb has_fraction
               [f "years"%string; f "months"%string; f "weeks"%string; f "days"%string; f "hours"%string;
                f "minutes"%string; f "seconds"%string]
          then Ok (LibraryDuration s)
          else
            let years := ascii_number (f "years"%string) in
            let months := ascii_number (f "months"%string) in
            let negative :=
              match group (m_groups found) "sign" with
              | Some [45%N] => true
              | _ => false
              end in
            tdelta <- timedelta_new
                        (((((ascii_number (f "weeks"%string) * 7
                             + ascii_number (f "days"%string)) * 24
                            + ascii_number (f "hours"%string)) * 60
                           + ascii_number (f "minutes"%string)) * 60
                          + ascii_number (f "seconds"%string)) * 1000000)%Z ;;
            if (years =? 0)%Z && (months =? 0)%Z then
              if negative
              then ret <- timedelta_new (0 - tdelta)%Z ;; Ok (Timedelta ret)
              else Ok (Timedelta tdelta)
            else
              if negative
              then ret <- timedelta_new (0 - tdelta)%Z ;;
                   Ok (Duration (0 - years) (0 - months) ret)
              else Ok (Duration years months tdelta)
      end
  | _ => Raise (Exn TypeError (py "Expecting a string"))
  end.

(** ** The parsing step of [extract_contract_structured], lines 163-172 *)

Definition c_lbrace : N := 123.
Definition c_rbrace : N := 125.

Definition failure_record (error : pystr) (raw : pystr) : pyval :=
  PyDict [(py "error", PyStr error); (py "raw", PyStr raw)].

Definition parse_response (response : pystr) : result pyval :=
  try_except_Exception
    (let json_start := str_find response c_lbrace in
     let json_end := (str_rfind response c_rbrace + 1)%Z in
     if negb (json_start =? -1)%Z && negb (json_end =? -1)%Z
     then json_loads (py_slice response json_start json_end)
     else Ok (failure_record (py "No JSON found in response") response))
    (fun e =>
       Ok (failure_record (py "Failed to parse JSON: " ++ exn_str e)
             response)).

(** ** The extraction prompt, lines 144-161 *)

Definition CLAUSE_TYPES : list string :=
  ["Renewal & Termination"; "Confidentiality & Non-Disclosure";
   "Non-Compete & Exclusivity"; "Liability & Indemnification";
   "Service-Level Agreements"]%string.

Definition CONTRACT_TYPES : list string :=
  ["Affiliate Agreement"; "Development"; "Distributor"; "Endorsement";
   "Franchise"; "Hosting"; "IP"; "Joint Venture"; "License Agreement";
   "Maintenance"; "Manufacturing"; "Marketing"; "Non Compete/Solicit";
   "Outsourcing"; "Promotion"; "Reseller"; "Service"; "Sponsorship";
   "Strategic Alliance"; "Supply"; "Transportation"]%string.

(** [repr] of a list of plain strings. *)
Fixpoint join_repr (l : list string) : pystr :=
  match l with
  | [] => []
  | [x] => py "'" ++ py x ++ py "'"
  | x :: l' => py "'" ++ py x ++ py "', " ++ join_repr l'
  end.

Definition list_repr (l : list string) : pystr :=
  py "[" ++ join_repr l ++ py "]".

Definition nl : pystr := [10%N].

Definition extraction_prompt (text : pystr) : pystr :=
  nl
  ++ py "Extract the following structured information from this contract. Return your answer as a JSON object with these fields:" ++ nl
  ++ py "- summary (string)" ++ nl
  ++ py "- contract_type (string, one of " ++ list_repr CONTRACT_TYPES
  ++ py ")" ++ nl
  ++ py "- parties (list of organizations, each with name, location (address, city, state, country), and role)" ++ nl
  ++ py "- effective_date (yyyy-MM-dd)" ++ nl
  ++ py "- contract_scope (string)" ++ nl
  ++ py "- duration (ISO 8601 duration or null)" ++ nl
  ++ py "- end_date (yyyy-MM-dd or null)" ++ nl
  ++ py "- total_amount (float or null)" ++ nl
  ++ py "- governing_law (location or null)" ++ nl
  ++ py "- clauses (list of clause objects, each with summary and clause_type from "
  ++ list_repr CLAUSE_TYPES ++ py ", or null)" ++ nl
  ++ nl
  ++ py "Contract text:" ++ nl
  ++ text ++ nl
  ++ nl
  ++ py "Return only the JSON object, no explanation." ++ nl.

(** ** The world the pipeline runs in

    The language model is reached through [call_gemma]; the semaphore of
    [process_all] is the only other mutable object.  The trace records
    what happened, in order. *)

Inductive event :=
| EvAcquire
| EvRelease
| EvModelCall (prompt : pystr).

Record world := World {
  w_calls : nat;          (* model calls made so far *)
  w_permits : Z;          (* value of the semaphore *)
  w_trace : list event
}.

(** A call returns, raises, or never returns because it waits on a
    semaphore that nobody will release. *)
Inductive outcome (A : Type) :=
| Done (a : A)
| Raised (e : exn)
| Blocked.
Arguments Done {A} a.
Arguments Raised {A} e.
Arguments Blocked {A}.

Definition M (A : Type) : Type := world -> outcome A * world.

Definition mret {A} (a : A) : M A := fun w => (Done a, w).

Definition mbind {A B} (m : M A) (k : A -> M B) : M B :=
  fun w =>
    match m w with
    | (Done a, w') => k a w'
    | (Raised e, w') => (Raised e, w')
    | (Blocked, w') => (Blocked, w')
    end.

Notation "x <~ m ;; k" := (mbind m (fun x => k))
  (at level 61, m at next level, right associativity) : py_scope.

Definition lift {A} (r : result A) : M A :=
  fun w =>
    match r with
    | Ok a => (Done a, w)
    | Raise e => (Raised e, w)
    end.

Definition log (e : event) (w : world) : world :=
  World (w_calls w) (w_permits w) (w_trace w ++ [e]).

(** [threading.Semaphore(value)] *)
Definition Semaphore (value : Z) : M unit :=
  fun w =>
    if (value <? 0)%Z
    then (Raised (verr "semaphore initial value must be >= 0"), w)
    else (Done tt, World (w_calls w) value (w_trace w)).

Definition acquire : M unit :=
  fun w =>
    if (0 <? w_permits w)%Z
    then (Done tt,
          log EvAcquire (World (w_calls w) (w_permits w - 1) (w_trace w)))
    else (Blocked, w).

Definition release : M unit :=
  fun w =>
    (Done tt, log EvRelease (World (w_calls w) (w_permits w + 1) (w_trace w))).

(** [with semaphore: body]; the permit is given back however [body]
    ends. *)
Definition with_semaphore {A} (body : M A) : M A :=
  fun w =>
    match acquire w with
    | (Done _, w1) =>
        match body w1 with
        | (Blocked, w2) => (Blocked, w2)
        | (r, w2) => (r, snd (release w2))
        end
    | (Raised e, w1) => (Raised e, w1)
    | (Blocked, w1) => (Blocked, w1)
    end.

Record contract := Contract { file_id : pystr; text : pystr }.

(** [structured_data[key] = value] *)
Definition setitem (structured_data : pyval) (key : pystr) (value : pyval)
    : result pydict :=
  match structured_data with
  | PyDict d => Ok (dict_set d key value)
  | _ =>
      Raise (Exn TypeError (py "object does not support item assignment"))
  end.

Definition k_file_id : pystr := py "file_id".
Definition k_effective_date : pystr := py "effective_date".
Definition k_end_date : pystr := py "end_date".
Definition k_duration : pystr := py "duration".

(** Lines 179-182, for one of the two keys. *)
Definition clean_date (d : pydict) (key : pystr) : result pydict :=
  if dict_contains d key then
    valid <- is_valid_date (dict_get d key) ;;
    Ok (dict_set d key (if valid then dict_get d key else PyNone))
  else Ok d.

Section Pipeline.

(** The platform's [strftime], see above. *)
Variable pad_year : bool.

(** [date_obj + duration] for a duration that [isodate] builds outside
    the whole-number designator form. *)
Variable library_add : pystr -> datetime -> result datetime.

(** The language model: the reply to the [n]-th request, or the error
    [call_gemma] raises for it. *)
Variable gemma : nat -> pystr -> result pystr.

(** [date_obj + duration]: [datetime.__add__] for a [timedelta],
    [Duration.__radd__] otherwise. *)
Definition datetime_add (t : datetime) (d : duration) : result datetime :=
  match d with
  | Timedelta td => datetime_add_timedelta t td
  | Duration years months tdelta =>
      let newmonth := (dt_month t + months)%Z in
      let carry := ((newmonth - 1) / 12)%Z in
      let newmonth := ((newmonth - 1) mod 12 + 1)%Z in
      let newyear := (dt_year t + years + carry)%Z in
      let maxdays := days_in_month newyear newmonth in
      let newday :=
        if (maxdays <? dt_day t)%Z then maxdays else dt_day t in
      check_date_fields newyear newmonth newday ;;;
      datetime_add_timedelta (DateTime newyear newmonth newday (dt_us t))
        tdelta
  | LibraryDuration s => library_add s t
  end.

(** [add_duration_to_date], lines 113-117. *)
Definition add_duration_to_date (date_str duration_str : pyval)
    : result pystr :=
  date_obj <- strptime date_str ;;
  duration <- parse_duration duration_str ;;
  result_date <- datetime_add date_obj duration ;;
  Ok (strftime pad_year result_date).

(** Lines 184-188. *)
Definition infer_end_date (d : pydict) : result pydict :=
  if negb (truthy (dict_get d k_end_date))
     && truthy (dict_get d k_effective_date)
     && truthy (dict_get d k_duration)
  then
    try_except_all
      (end_date <- add_duration_to_date (dict_get d k_effective_date)
                     (dict_get d k_duration) ;;
       Ok (dict_set d k_end_date (PyStr end_date)))
      (Ok d)
  else Ok d.

(** [call_gemma], seen from the pipeline. *)
Definition call_gemma (prompt : pystr) : M pystr :=
  fun w =>
    let w' := log (EvModelCall prompt)
                (World (S (w_calls w)) (w_permits w) (w_trace w)) in
    match gemma (w_calls w) prompt with
    | Ok reply => (Done reply, w')
    | Raise e => (Raised e, w')
    end.

(** [extract_contract_structured], lines 142-172. *)
Definition extract_contract_structured (text : pystr) : M pyval :=
  response <~ call_gemma (extraction_prompt text) ;;
  lift (parse_response response).

(** The date handling of [process_contract], lines 178-188. *)
Definition normalize_dates (d : pydict) : result pydict :=
d <- clean_date d k_effective_date ;;
d <- clean_date d k_end_date ;;
infer_end_date d.

(** The body of the [with] block of [process_contract], lines
    176-189. *)
Definition extract_and_normalize (c : contract) : M pydict :=
structured_data <~ extract_contract_structured (text c) ;;
lift (d <- setitem structured_data k_file_id (PyStr (file_id c)) ;;
      normalize_dates d).

(** [process_contract], lines 174-189. *)
Definition process_contract (c : contract) : M pydict :=
  with_semaphore (extract_and_normalize c).

(** The loop of [process_all], lines 194-197; the progress bar around
    [contracts] hands the items on unchanged. *)
Fixpoint process_loop (contracts : list contract) (results : list pydict)
    : M (list pydict) :=
  match contracts with
  | [] => mret results
  | c :: rest =>
      r <~ process_contract c ;;
      process_loop rest (results ++ [r])
  end.

(** [process_all], lines 191-197. *)
Definition process_all (contracts : list contract) (max_workers : Z)
    : M (list pydict) :=
  _ <~ Semaphore max_workers ;;
  process_loop contracts [].

(** The purely sequential in-order map that [process_all] is compared
    with: no semaphore, one contract after the other. *)
Fixpoint sequential_map (contracts : list contract) : M (list pydict) :=
  match contracts with
  | [] => mret []
  | c :: rest =>
      r <~ extract_and_normalize c ;;
      rs <~ sequential_map rest ;;
      mret (r :: rs)
  end.

End Pipeline.

(** The date policy of the specification, section 4.1: a date that fails
    validation counts as absent, and the end date is inferred when it is
    absent, the effective date is present and valid, and a duration is
    present. *)
Definition coerced (v : pyval) : pyval :=
  match is_valid_date v with
  | Ok true => v
  | _ => PyNone
  end.

Definition absent (v : pyval) : bool :=
  match v with PyNone => true | _ => false end.

(** What the inference writes: the sum when it can be computed, nothing
    otherwise. *)
Definition inferred (pad_year : bool)
    (library_add : pystr -> datetime -> result datetime)
    (effective_date duration : pyval) : pyval :=
  match add_duration_to_date pad_year library_add effective_date duration with
  | Ok end_date => PyStr end_date
  | Raise _ => PyNone
  end.

Definition inference_fires (d : pydict) : bool :=
  absent (coerced (dict_get d k_end_date))
  && negb (absent (coerced (dict_get d k_effective_date)))
  && negb (absent (dict_get d k_duration)).

(** The library hands back [datetime] objects, which are days of the
    calendar by the invariant of the class. *)
Definition library_returns_dates
    (library_add : pystr -> datetime -> result datetime) : Prop :=
  forall s t t', library_add s t = Ok t' -> datetime_ok t' = true.

(** What an emitted end date can be. *)
Definition end_date_ok (pad_year : bool) (v : pyval) : Prop :=
  v = PyNone \/
  exists s, v = PyStr s /\
    (is_valid_date (PyStr s) = Ok true \/
     pad_year = false /\
     exists t, datetime_ok t = true /\ (dt_year t < 1000)%Z /\
               s = strftime false t).


(** The world after one model call. *)
Definition after_call (w : world) (prompt : pystr) : world :=
  log (EvModelCall prompt) (World (S (w_calls w)) (w_permits w) (w_trace w)).

(** What the extraction of one contract comes to when it makes the [n]-th
    model call. *)
Definition item_outcome (pad_year : bool)
    (library_add : pystr -> datetime -> result datetime)
    (gemma : nat -> pystr -> result pystr) (c : contract) (n : nat)
    : outcome pydict :=
  fst (extract_and_normalize pad_year library_add gemma c (World n 0 [])).

Definition outcome_map {A B} (f : A -> B) (o : outcome A) : outcome B :=
  match o with
  | Done a => Done (f a)
  | Raised e => Raised e
  | Blocked => Blocked
  end.

Definition no_contract : contract := Contract [] [].

(** The model answers the requests for the first [upto] contracts of
    [cs], the first of which is request number [first]. *)
Definition replies_ok (gemma : nat -> pystr -> result pystr)
    (cs : list contract) (first upto : nat) : Prop :=
  forall i, (i < upto)%nat ->
    exists reply,
      gemma (first + i) (extraction_prompt (text (nth i cs no_contract)))
      = Ok reply.

(** Extractions in flight after a trace, and whether their number ever
    exceeded [limit]. *)
Fixpoint in_flight_within (limit current : Z) (trace : list event) : bool :=
  match trace with
  | [] => true
  | EvAcquire :: t =>
      (current + 1 <=? limit)%Z && in_flight_within limit (current + 1) t
  | EvRelease :: t => in_flight_within limit (current - 1) t
  | EvModelCall _ :: t => in_flight_within limit current t
  end.

Definition model_calls (trace : list event) : list pystr :=
  flat_map (fun e => match e with EvModelCall p => [p] | _ => [] end) trace.

(** ** Retrieval *)

(** Modelled from the spec: [find_most_relevant_contract] ([best_match]).
    [app.py] imports it from the extraction module, whose source does not
    define it.  Section 4.5 of the specification: the candidate with the
    highest similarity wins, the earliest one on a tie, and an empty
    candidate set is the error [EmptyIndex].  Vectors, scores and the
    similarity metric are those of the embedding collaborator. *)
Section SimilaritySearch.

Variables (candidate_id vector score : Type).
Variable similarity : vector -> vector -> score.
Variable score_ltb : score -> score -> bool.

Inductive retrieval_error := EmptyIndex.

Fixpoint best_of (query : vector) (best : candidate_id * score)
    (rest : list (candidate_id * vector)) : candidate_id * score :=
  match rest with
  | [] => best
  | (i, v) :: rest' =>
      let s := similarity query v in
      best_of query (if score_ltb (snd best) s then (i, s) else best) rest'
  end.

Definition best_match (query : vector)
    (candidates : list (candidate_id * vector))
    : retrieval_error + candidate_id * score :=
  match candidates with
  | [] => inl EmptyIndex
  | (i, v) :: rest => inr (best_of query (i, similarity query v) rest)
  end.

End SimilaritySearch.

(** ** Sample inputs

    A contract, a world with no call made yet, a library that accepts no
    duration outside the whole-number designators, and two language
    models: one that always sends the same object, one whose second
    request fails at the transport. *)
Definition example_contract : contract := Contract (py "A") (py "text of A").
Definition example_world : world := World 0 0 [].
Definition example_library (s : pystr) (t : datetime) : result datetime :=
  Raise iso_error.
Definition example_reply (n : nat) (prompt : pystr) : result pystr :=
  Ok (pyq "{'summary': 's', 'end_date': '2020-1-5'}").

Definition failing_for_B (n : nat) (prompt : pystr) : result pystr :=
  match n with
  | 1%nat => Raise (Exn RuntimeError (py "Gemma API error: 500"))
  | _ => Ok (pyq "{'summary': 's'}")
  end.

Definition contracts_ABC : list contract :=
  [Contract (py "A") (py "text of A"); Contract (py "B") (py "text of B");
   Contract (py "C") (py "text of C")].

(** * Properties *)

(** ** Strings and dictionaries *)

Lemma str_eqb_eq (a b : pystr) : str_eqb a b = true <-> a = b.
Proof.
  revert b; induction a as [|x a IH]; intros [|y b]; simpl; split; intro H;
    try reflexivity; try discriminate.
  - apply andb_true_iff in H as [H1 H2].
    apply N.eqb_eq in H1. apply IH in H2. congruence.
  - inversion H; subst. rewrite N.eqb_refl. simpl. now apply IH.
Qed.

Lemma str_eqb_refl (a : pystr) : str_eqb a a = true.
Proof. now apply str_eqb_eq. Qed.

Lemma str_eqb_neq (a b : pystr) : a <> b -> str_eqb a b = false.
Proof.
  intro H. destruct (str_eqb a b) eqn:E; [|reflexivity].
  apply str_eqb_eq in E. contradiction.
Qed.

Lemma dict_lookup_set_same d k v : dict_lookup (dict_set d k v) k = Some v.
Proof.
  induction d as [|[k' v'] d IH]; simpl.
  - now rewrite str_eqb_refl.
  - destruct (str_eqb k' k) eqn:E; simpl; rewrite E; auto.
Qed.

Lemma dict_lookup_set_other d k k' v :
  k <> k' -> dict_lookup (dict_set d k v) k' = dict_lookup d k'.
Proof.
  intro Hne. induction d as [|[k0 v0] d IH]; simpl.
  - now rewrite (str_eqb_neq Hne).
  - destruct (str_eqb k0 k) eqn:E; simpl.
    + apply str_eqb_eq in E; subst k0.
      now rewrite (str_eqb_neq Hne).
    + now rewrite IH.
Qed.

Lemma dict_get_set_same d k v : dict_get (dict_set d k v) k = v.
Proof. unfold dict_get. now rewrite dict_lookup_set_same. Qed.

Lemma dict_get_set_other d k k' v :
  k <> k' -> dict_get (dict_set d k v) k' = dict_get d k'.
Proof. intro H. unfold dict_get. now rewrite dict_lookup_set_other. Qed.


(** ** [is_valid_date] and the grammar of [strptime] *)

Lemma in_rmatch_cls p st st' :
  In st' (rmatch (Cls p) st) ->
  exists c t, m_rest st = c :: t /\ p c = true /\
    st' = MState (S (m_pos st)) (Some c) t (m_groups st).
Proof.
  simpl. destruct (m_rest st) as [|c t]; [intros []|].
  destruct (p c) eqn:E; [|intros []].
  intros [<-|[]]. now exists c, t.
Qed.


Lemma rmatch_grp name r st :
  rmatch (Grp name r) st =
  map (fun st' =>
         MState (m_pos st') (m_prev st') (m_rest st')
           ((name, firstn (m_pos st' - m_pos st) (m_rest st)) :: m_groups st'))
      (rmatch r st).
Proof. reflexivity. Qed.

Ltac inv_match H :=
  lazymatch type of H with
  | In _ (rmatch (Cat ?r1 ?r2) ?st) =>
      let st1 := fresh "st" in let H1 := fresh "H" in let H2 := fresh "H" in
      change (rmatch (Cat r1 r2) st) with (flat_map (rmatch r2) (rmatch r1 st)) in H;
      apply in_flat_map in H; destruct H as (st1 & H1 & H2);
      inv_match H1; inv_match H2
  | In _ (rmatch (Alt ?r1 ?r2) ?st) =>
      change (rmatch (Alt r1 r2) st) with (rmatch r1 st ++ rmatch r2 st) in H;
      apply in_app_or in H; destruct H as [H|H]; inv_match H
  | In _ (rmatch (Grp ?n ?r) ?st) =>
      let st1 := fresh "st" in let H1 := fresh "H" in let H2 := fresh "H" in
      rewrite rmatch_grp in H;
      apply in_map_iff in H; destruct H as (st1 & H1 & H2);
      inv_match H2; subst; cbn [m_rest m_pos m_prev m_groups] in *
  | In _ (rmatch (Cls _) _) =>
      let c := fresh "c" in let t := fresh "t" in
      let E := fresh "E" in let P := fresh "P" in
      apply in_rmatch_cls in H; destruct H as (c & t & E & P & ->);
      cbn [m_rest m_pos m_prev m_groups] in *; subst
  | _ => idtac
  end.


Lemma bind_ok_inv A B (r : result A) (k : A -> result B) b :
  bind r k = Ok b -> exists a, r = Ok a /\ k a = Ok b.
Proof. destruct r as [a|e]; simpl; [eauto|discriminate]. Qed.

Lemma datetime_new_ok y m d t :
  datetime_new y m d = Ok t ->
  date_fields_ok y m d = true /\ t = DateTime y m d 0.
Proof.
  unfold datetime_new, check_date_fields, date_fields_ok.
  destruct (MINYEAR <=? y)%Z, (y <=? MAXYEAR)%Z; simpl; try discriminate.
  destruct (1 <=? m)%Z, (m <=? 12)%Z; simpl; try discriminate.
  destruct (1 <=? d)%Z, (d <=? days_in_month y m)%Z; simpl; try discriminate.
  intro H; injection H as <-. split; reflexivity.
Qed.

Lemma date_fields_ok_spec y m d :
  date_fields_ok y m d = true <->
  (1 <= y <= 9999 /\ 1 <= m <= 12 /\ 1 <= d <= days_in_month y m)%Z.
Proof.
  unfold date_fields_ok, MINYEAR, MAXYEAR.
  rewrite !andb_true_iff, !Z.leb_le. lia.
Qed.

Lemma is_valid_date_true_inv v :
  is_valid_date v = Ok true -> exists t, strptime v = Ok t.
Proof.
  unfold is_valid_date. destruct (strptime v) as [t|e]; simpl; [eauto|discriminate].
Qed.

Lemma is_valid_date_sound s :
  is_valid_date (PyStr s) = Ok true -> strptime_date_text s.
Proof.
  intro H. apply is_valid_date_true_inv in H as [t H].
  unfold strptime in H.
  destruct (re_match format_regex s) as [found|] eqn:M; [|discriminate H].
  destruct (Nat.eqb (List.length s) (m_pos found)) eqn:L; [|discriminate H].
  cbn [negb] in H.
  unfold re_match in M.
  assert (I : In found (rmatch format_regex (MState 0 None s []))).
  { destruct (rmatch _ _); [discriminate M|]. injection M as ->. now left. }
  clear M. unfold format_regex, re_Y, re_m, re_d, Lit in I.
  inv_match I.
  all: cbn [List.length Nat.eqb] in L;
       match type of L with context [List.length ?l] =>
         is_var l; destruct l; [|discriminate L]; clear L end.
  all: unfold group_int in H;
       cbn [group m_groups String.eqb Ascii.eqb Bool.eqb firstn Nat.sub] in H.
  all: apply bind_ok_inv in H as (y & HY & H);
       apply bind_ok_inv in H as (m & HM & H);
       apply bind_ok_inv in H as (d & HD & H);
       apply datetime_new_ok in H as [F _];
       apply date_fields_ok_spec in F.
  all: repeat match goal with
         | E : N.eqb _ _ = true |- _ => apply N.eqb_eq in E; subst
         end.
  all: match type of HY with py_int ?ys = _ =>
       match type of HM with py_int ?ms = _ =>
       match type of HD with py_int ?ds = _ =>
         exists ys, ms, ds, y, m, d end end end.
  all: repeat split; try assumption; try reflexivity; try lia.
  all: try (now (constructor; assumption)).
  all: try (do 4 eexists; repeat split; eassumption).
Qed.

Lemma decimal_in_bound zeros c v :
  decimal_in zeros c = Some v -> (0 <= v <= 9)%Z.
Proof.
  induction zeros as [|z zs IH]; simpl; [discriminate|].
  unfold in_range.
  destruct (N.leb_spec z c) as [L1|L1], (N.leb_spec c (z + 9)) as [L2|L2];
    simpl; auto.
  intro X; injection X as <-. lia.
Qed.

Lemma decimal_value_bound c v : decimal_value c = Some v -> (0 <= v <= 9)%Z.
Proof. apply decimal_in_bound. Qed.

Lemma in_range_spec lo hi c :
  in_range lo hi c = true <-> (lo <= c <= hi)%N.
Proof. unfold in_range. rewrite andb_true_iff, !N.leb_le. tauto. Qed.

Lemma ascii_digit_value c :
  in_range 48 57 c = true -> decimal_value c = Some (Z.of_N c - 48)%Z.
Proof.
  intro H. unfold decimal_value, decimal_zeros. cbn [decimal_in].
  change (48 + 9)%N with 57%N. rewrite H.
  apply in_range_spec in H. f_equal. lia.
Qed.

Lemma is_decimal_value c :
  is_decimal c = true -> exists v, decimal_value c = Some v /\ (0 <= v <= 9)%Z.
Proof.
  unfold is_decimal. destruct (decimal_value c) as [v|] eqn:E; [|discriminate].
  intros _. exists v. split; [reflexivity|]. now apply decimal_value_bound in E.
Qed.

Lemma is_decimal_not_blank c : is_decimal c = true -> N.eqb c 32 = false.
Proof.
  intro H. destruct (N.eqb_spec c 32) as [->|]; [|reflexivity].
  vm_compute in H. discriminate.
Qed.

Lemma in_range_sub lo hi lo' hi' c :
  (lo' <= lo)%N -> (hi <= hi')%N ->
  in_range lo hi c = true -> in_range lo' hi' c = true.
Proof. rewrite !in_range_spec. lia. Qed.

Lemma py_int_digit c t :
  N.eqb c 32 = false ->
  py_int (c :: t) =
  match int_digits 0 (c :: t) with
  | Some z => Ok z
  | None => Raise (verr "invalid literal for int()")
  end.
Proof. intro H. unfold py_int. cbn [lstrip_blank]. now rewrite H. Qed.

Lemma Ok_inj A (a b : A) : Ok a = Ok b -> a = b.
Proof. congruence. Qed.

Lemma int_digits_cons acc c t :
  int_digits acc (c :: t) =
  match decimal_value c with
  | Some v => int_digits (10 * acc + v) t
  | None => None
  end.
Proof. reflexivity. Qed.

Lemma int_digits_nil acc : int_digits acc [] = Some acc.
Proof. reflexivity. Qed.

Ltac int_eval :=
  repeat first
    [ rewrite int_digits_nil
    | rewrite int_digits_cons;
      first [ match goal with E : decimal_value _ = _ |- _ => rewrite E end
            | progress change (decimal_value 48) with (Some 0%Z)
            | progress change (decimal_value 49) with (Some 1%Z)
            | progress change (decimal_value 51) with (Some 3%Z) ];
      cbv beta iota ].

Lemma year_text_bound ys y :
  year_text ys -> py_int ys = Ok y -> (0 <= y <= 9999)%Z.
Proof.
  intros (a & b & c & d & -> & Ha & Hb & Hc & Hd).
  rewrite py_int_digit by now apply is_decimal_not_blank.
  apply is_decimal_value in Ha as (va & Ea & ?), Hb as (vb & Eb & ?),
    Hc as (vc & Ec & ?), Hd as (vd & Ed & ?).
  int_eval. intro X; apply Ok_inj in X; subst; lia.
Qed.

Ltac digit_facts :=
  repeat match goal with
    | H : in_range ?lo ?hi ?c = true |- _ =>
        lazymatch goal with
        | _ : decimal_value c = _ |- _ => fail
        | _ =>
            let E := fresh "E" in
            assert (E : decimal_value c = Some (Z.of_N c - 48)%Z)
              by (apply ascii_digit_value;
                  refine (in_range_sub _ _ _ H); vm_compute; discriminate);
            let B := fresh "B" in
            assert (B : N.eqb c 32 = false)
              by (apply in_range_spec in H; apply N.eqb_neq; lia)
        end
    end.

Lemma month_text_bound ms m :
  month_text ms -> py_int ms = Ok m -> (1 <= m <= 12)%Z.
Proof.
  intros [c H|c H|c H]; digit_facts;
    rewrite py_int_digit by (assumption || reflexivity);
    int_eval; apply in_range_spec in H; intro X; apply Ok_inj in X; subst; lia.
Qed.

Lemma day_text_bound ds d :
  day_text ds -> py_int ds = Ok d -> (1 <= d <= 31)%Z.
Proof.
  intros [c H|c H|c H|a b H Hb|c H]; digit_facts;
    try (apply is_decimal_value in Hb as (vb & Eb & ?));
    [ rewrite py_int_digit by assumption
    | rewrite py_int_digit by reflexivity
    | unfold py_int; cbn [lstrip_blank]; change (N.eqb 32 32) with true;
      cbn [lstrip_blank]; rewrite B
    | rewrite py_int_digit by assumption
    | rewrite py_int_digit by reflexivity ];
    int_eval; apply in_range_spec in H; intro X; apply Ok_inj in X; subst; lia.
Qed.

Ltac eval_test :=
  match goal with
  | H : ?t = _ |- context [if ?t then _ else _] => rewrite H
  | |- context [if ?t then _ else _] =>
      let v := eval vm_compute in t in
      match v with
      | true => change t with true
      | false => change t with false
      end
  | |- context [if ?t then _ else _] => destruct t eqn:?
  end.

Ltac eval_match :=
  cbn [re_match rmatch flat_map app map hd_error m_rest m_pos m_prev m_groups
       format_regex re_Y re_m re_d Lit c_dash].

Lemma datetime_new_valid y m d :
  date_fields_ok y m d = true -> datetime_new y m d = Ok (DateTime y m d 0).
Proof.
  unfold datetime_new, check_date_fields, date_fields_ok.
  destruct (MINYEAR <=? y)%Z, (y <=? MAXYEAR)%Z; simpl; try discriminate.
  destruct (1 <=? m)%Z, (m <=? 12)%Z; simpl; try discriminate.
  destruct (1 <=? d)%Z, (d <=? days_in_month y m)%Z; simpl; try discriminate.
  reflexivity.
Qed.

Lemma in_range_false lo hi c :
  in_range lo hi c = false -> ~ (lo <= c <= hi)%N.
Proof. rewrite <- in_range_spec. congruence. Qed.

Ltac bool2prop :=
  repeat match goal with
    | H : N.eqb _ _ = true |- _ => apply N.eqb_eq in H
    | H : N.eqb _ _ = false |- _ => apply N.eqb_neq in H
    | H : in_range _ _ _ = true |- _ => apply in_range_spec in H
    | H : in_range _ _ _ = false |- _ => apply in_range_false in H
    end.

Lemma is_valid_date_complete s :
  strptime_date_text s -> is_valid_date (PyStr s) = Ok true.
Proof.
  intros (ys & ms & ds & y & m & d & -> & Hy & Hm & Hd & Ey & Em & Ed & Y1 & D).
  pose proof (year_text_bound Hy Ey) as By.
  pose proof (month_text_bound Hm Em) as Bm.
  pose proof (day_text_bound Hd Ed) as Bd.
  destruct Hy as (a & b & c & e & -> & Ha & Hb & Hc & He).
  unfold is_valid_date, strptime.
  destruct Hm as [c1 H1|c1 H1|c1 H1], Hd as [c2 H2|c2 H2|c2 H2|c2 c3 H2 H3|c2 H2];
    cbn [app]; unfold re_match, format_regex, re_Y, re_m, re_d, Lit, c_dash;
    eval_match; repeat (eval_test; eval_match).
  all: first
    [ unfold group_int;
      cbn [group m_groups String.eqb Ascii.eqb Bool.eqb firstn Nat.sub];
      rewrite Ey, Em, Ed; cbn [bind];
      rewrite (datetime_new_valid y m d)
        by (apply date_fields_ok_spec; lia);
      reflexivity
    | exfalso; bool2prop; lia ].
Qed.

(** ** The fixed format [YYYY-MM-DD] *)

Lemma days_in_month_bound y m : (28 <= days_in_month y m <= 31)%Z.
Proof.
  unfold days_in_month.
  destruct (m =? 2)%Z; [destruct (is_leap y); lia|].
  destruct ((m =? 4) || (m =? 6) || (m =? 9) || (m =? 11))%Z; lia.
Qed.

Lemma ascii_digit_is_decimal c : ascii_digit c = true -> is_decimal c = true.
Proof.
  intro H. unfold is_decimal. now rewrite (ascii_digit_value c H).
Qed.

Lemma ascii_digit_not_blank c : ascii_digit c = true -> N.eqb c 32 = false.
Proof.
  intro H. apply in_range_spec in H. apply N.eqb_neq. lia.
Qed.

Lemma py_int_ascii4 a b c d :
  ascii_digit a = true -> ascii_digit b = true ->
  ascii_digit c = true -> ascii_digit d = true ->
  py_int [a; b; c; d] = Ok (ascii_number [a; b; c; d]).
Proof.
  intros Ha Hb Hc Hd.
  rewrite py_int_digit by now apply ascii_digit_not_blank.
  pose proof (ascii_digit_value a Ha). pose proof (ascii_digit_value b Hb).
  pose proof (ascii_digit_value c Hc). pose proof (ascii_digit_value d Hd).
  int_eval. reflexivity.
Qed.

Lemma py_int_ascii2 a b :
  ascii_digit a = true -> ascii_digit b = true ->
  py_int [a; b] = Ok (ascii_number [a; b]).
Proof.
  intros Ha Hb.
  rewrite py_int_digit by now apply ascii_digit_not_blank.
  pose proof (ascii_digit_value a Ha). pose proof (ascii_digit_value b Hb).
  int_eval. reflexivity.
Qed.

Lemma ascii_number2 a b :
  ascii_number [a; b] = (10 * (10 * 0 + (Z.of_N a - 48)) + (Z.of_N b - 48))%Z.
Proof. reflexivity. Qed.

Lemma iso_date_text_accepted s :
  is_iso_date_text s = true -> strptime_date_text s.
Proof.
  destruct s as [|y1 [|y2 [|y3 [|y4 [|h1 [|m1 [|m2 [|h2 [|d1 [|d2 [|x s]]]]]]]]]]];
    try discriminate.
  unfold is_iso_date_text. cbn [forallb].
  rewrite !andb_true_iff.
  intros [[[(Hy1 & Hy2 & Hy3 & Hy4 & Hm1 & Hm2 & Hd1 & Hd2 & _) E1] E2] F].
  apply N.eqb_eq in E1, E2. subst h1 h2.
  apply date_fields_ok_spec in F. destruct F as (Fy & Fm & Fd).
  pose proof (days_in_month_bound (ascii_number [y1; y2; y3; y4])
                (ascii_number [m1; m2])) as Bdim.
  exists [y1; y2; y3; y4], [m1; m2], [d1; d2].
  exists (ascii_number [y1; y2; y3; y4]), (ascii_number [m1; m2]),
    (ascii_number [d1; d2]).
  rewrite py_int_ascii4, !py_int_ascii2 by assumption.
  pose proof Fd as Fd0.
  rewrite ascii_number2 in Fm. rewrite (ascii_number2 d1 d2) in Fd.
  unfold ascii_digit in Hm1, Hm2, Hd1, Hd2.
  pose proof Hd2 as Hd2'.
  apply in_range_spec in Hm1, Hm2, Hd1, Hd2.
  repeat split; try reflexivity; try lia.
  - exists y1, y2, y3, y4.
    repeat split; try reflexivity; now apply ascii_digit_is_decimal.
  - assert (m1 = 48 \/ m1 = 49)%N as [-> | ->] by lia.
    + apply month_zero. apply in_range_spec. lia.
    + apply month_ten. apply in_range_spec. lia.
  - assert (d1 = 48 \/ d1 = 49 \/ d1 = 50 \/ d1 = 51)%N
      as [-> | [-> | [-> | ->]]] by lia.
    + apply day_zero. apply in_range_spec. lia.
    + apply day_teens; [reflexivity | now apply ascii_digit_is_decimal].
    + apply day_teens; [reflexivity | now apply ascii_digit_is_decimal].
    + apply day_thirty. apply in_range_spec. lia.
Qed.

(** ** [strftime] writes what [is_valid_date] reads *)

Lemma digit_char_ascii n : ascii_digit (digit_char n) = true.
Proof.
  unfold ascii_digit, digit_char. apply in_range_spec.
  pose proof (Z.mod_pos_bound n 10). lia.
Qed.

Lemma digit_char_value n : (Z.of_N (digit_char n) - 48 = n mod 10)%Z.
Proof.
  unfold digit_char. pose proof (Z.mod_pos_bound n 10). lia.
Qed.

Lemma strftime_iso pad_year y m d us :
  date_fields_ok y m d = true ->
  pad_year = true \/ (1000 <= y)%Z ->
  is_iso_date_text (strftime pad_year (DateTime y m d us)) = true.
Proof.
  intros F P. unfold strftime, strftime_year. cbn [dt_year dt_month dt_day].
  replace (pad_year || (1000 <=? y)%Z) with true
    by (destruct P as [-> | P]; [reflexivity|];
        apply Z.leb_le in P; rewrite P; now rewrite orb_true_r).
  cbn [app]. unfold is_iso_date_text. cbn [forallb].
  rewrite !digit_char_ascii. unfold c_dash. rewrite N.eqb_refl.
  cbn [andb].
  unfold ascii_number. cbn [fold_left]. rewrite !digit_char_value.
  apply date_fields_ok_spec in F.
  pose proof (days_in_month_bound y m) as Bdim.
  replace (10 * (10 * (10 * (10 * 0 + (y / 1000) mod 10) + (y / 100) mod 10)
                 + (y / 10) mod 10) + y mod 10)%Z with y
    by (destruct F as (Fy & _); clear - Fy; Z.div_mod_to_equations; lia).
  replace (10 * (10 * 0 + (m / 10) mod 10) + m mod 10)%Z with m
    by (destruct F as (_ & Fm & _); clear - Fm; Z.div_mod_to_equations; lia).
  replace (10 * (10 * 0 + (d / 10) mod 10) + d mod 10)%Z with d
    by (destruct F as (_ & _ & Fd); clear - Fd Bdim;
        Z.div_mod_to_equations; lia).
  apply date_fields_ok_spec. exact F.
Qed.

Lemma strftime_accepted pad_year t :
  datetime_ok t = true ->
  pad_year = true \/ (1000 <= dt_year t)%Z ->
  is_valid_date (PyStr (strftime pad_year t)) = Ok true.
Proof.
  intros H P. destruct t as [y m d us].
  unfold datetime_ok in H. cbn [dt_year dt_month dt_day dt_us] in H.
  rewrite !andb_true_iff in H. destruct H as [[F _] _].
  apply is_valid_date_complete, iso_date_text_accepted.
  now apply strftime_iso.
Qed.

(** ** [is_valid_date] *)

Lemma is_valid_date_returns v : exists b, is_valid_date v = Ok b.
Proof.
  unfold is_valid_date. destruct (strptime v); simpl; eauto.
Qed.

Lemma is_valid_date_not_str v :
  (forall s, v <> PyStr s) -> is_valid_date v = Ok false.
Proof.
  intro H. destruct v; try reflexivity. now destruct (H s).
Qed.

Lemma is_valid_date_true_str v :
  is_valid_date v = Ok true -> exists s, v = PyStr s /\ strptime_date_text s.
Proof.
  intro H. destruct v; try discriminate H.
  exists s. split; [reflexivity|]. now apply is_valid_date_sound.
Qed.

Lemma strptime_date_text_nonempty s : strptime_date_text s -> s <> [].
Proof.
  intros (ys & ms & ds & y & m & d & -> & (a & b & c & e & -> & _) & _).
  discriminate.
Qed.

Lemma valid_date_truthy v : is_valid_date v = Ok true -> truthy v = true.
Proof.
  intro H. apply is_valid_date_true_str in H as (s & -> & T).
  apply strptime_date_text_nonempty in T. now destruct s.
Qed.

(** C5, as the source has it.  [is_valid_date] never raises.  It answers
    [True] exactly for the texts that [strptime] reads with ['%Y-%m-%d']:
    four decimal digits of a year from 1 on, a hyphen, a month from 1 to 12
    written with one or two digits, a hyphen, and a day of that month
    written with one or two digits or with a blank and a digit.  Every text
    in the fixed form [YYYY-MM-DD] that names a calendar day is among them;
    every other value, a string or not, gets [False]. *)
Theorem is_valid_date_reads_strptime_grammar (v : pyval) :
  (exists b, is_valid_date v = Ok b) /\
  (is_valid_date v = Ok true <-> exists s, v = PyStr s /\ strptime_date_text s) /\
  (forall s, v = PyStr s -> is_iso_date_text s = true ->
             is_valid_date v = Ok true).
Proof.
  split; [apply is_valid_date_returns|]. split; [split|].
  - apply is_valid_date_true_str.
  - intros (s & -> & T). now apply is_valid_date_complete.
  - intros s -> I. now apply is_valid_date_complete, iso_date_text_accepted.
Qed.

Lemma is_valid_date_reads_strptime_grammar_witness :
  is_iso_date_text (py "2024-02-29") = true /\
  is_valid_date (PyStr (py "2024-02-29")) = Ok true.
Proof.
  split; [reflexivity|].
  apply (proj2 (proj2 (is_valid_date_reads_strptime_grammar
                         (PyStr (py "2024-02-29")))) (py "2024-02-29"));
    reflexivity.
Defined.

(** The claim C5 as stated fails: the text [2020-1-5] is not in the form
    [YYYY-MM-DD], and [is_valid_date] answers [True] for it. *)
Lemma is_valid_date_accepts_short_fields :
  is_iso_date_text (py "2020-1-5") = false /\
  is_valid_date (PyStr (py "2020-1-5")) = Ok true.
Proof. split; vm_compute; reflexivity. Qed.

(** C10.  [is_valid_date] is total: whatever value it is given it returns
    a boolean and raises nothing, and a value that is not a string
    ([None], a number, a list, an object) gets [False]; so the date
    cleaning of [process_contract] returns for every record and key. *)
Theorem is_valid_date_total (v : pyval) :
  exists b, is_valid_date v = Ok b /\
    ((forall s, v <> PyStr s) -> b = false) /\
    (forall d key, dict_lookup d key = Some v ->
                   exists d', clean_date d key = Ok d').
Proof.
  destruct (is_valid_date_returns v) as [b Hb]. exists b.
  split; [exact Hb|]. split.
  - intro H. rewrite (is_valid_date_not_str H) in Hb. congruence.
  - intros d key L. unfold clean_date, dict_contains, dict_get. rewrite L.
    rewrite Hb. simpl. eauto.
Qed.

Lemma is_valid_date_total_witness :
  exists b, is_valid_date PyNone = Ok b /\ b = false.
Proof.
  destruct (is_valid_date_total PyNone) as (b & Hb & Hf & _).
  exists b. split; [exact Hb|]. apply Hf. intros s; discriminate.
Defined.

(** ** The regular-expression matcher only moves forward *)

Ltac break_match :=
  match goal with
  | |- context [match ?x with _ => _ end] =>
      lazymatch x with
      | context [match _ with _ => _ end] => fail
      | _ => destruct x eqn:?
      end
  | H : context [match ?x with _ => _ end] |- _ =>
      lazymatch x with
      | context [match _ with _ => _ end] => fail
      | _ => destruct x eqn:?
      end
  end.

Lemma star_class_rest p pos prev rest g st' :
  In st' (star_class p pos prev rest g) ->
  (List.length (m_rest st') <= List.length rest)%nat.
Proof.
  revert pos prev. induction rest as [|c t IH]; intros pos prev; simpl.
  - intros [<-|[]]. simpl. lia.
  - destruct (p c).
    + intro H. apply in_app_or in H as [H|[<-|[]]].
      * apply IH in H. lia.
      * simpl. lia.
    + intros [<-|[]]. simpl. lia.
Qed.

Lemma rmatch_rest r : forall st st',
  In st' (rmatch r st) ->
  (List.length (m_rest st') <= List.length (m_rest st))%nat.
Proof.
  induction r as [|p|r1 IH1 r2 IH2|r1 IH1 r2 IH2|r1 IH1|p|name r1 IH1| |];
    intros st st'; cbn [rmatch].
  - intros [<-|[]]. lia.
  - destruct (m_rest st) as [|c t]; [intros []|].
    destruct (p c); [|intros []]. intros [<-|[]]. simpl. lia.
  - intro H. apply in_flat_map in H as (st1 & H1 & H2).
    apply IH1 in H1. apply IH2 in H2. lia.
  - intro H. apply in_app_or in H as [H|H]; auto.
  - intro H. apply in_app_or in H as [H|[<-|[]]]; auto.
  - apply star_class_rest.
  - intro H. apply in_map_iff in H as (st1 & <- & H1).
    apply IH1 in H1. simpl. exact H1.
  - destruct (Bool.eqb _ _); [|intros []]. intros [<-|[]]. lia.
  - repeat break_match; intro H; simpl in H; try contradiction;
      destruct H as [<-|[]];
      match goal with E : m_rest _ = _ |- _ => rewrite E end; simpl; lia.
Qed.

(** ** [json.loads] *)

Lemma skip_ws_rest idx s i r :
  skip_ws idx s = (i, r) -> (List.length r <= List.length s)%nat.
Proof.
  revert idx. induction s as [|c t IH]; intros idx; simpl.
  - intro H; injection H as <- <-. simpl. lia.
  - destruct (is_ws c).
    + intro H. apply IH in H. lia.
    + intro H; injection H as <- <-. simpl. lia.
Qed.

Lemma starts_with_rest prefix s rest :
  starts_with prefix s = Some rest ->
  (List.length rest <= List.length s)%nat.
Proof.
  revert s. induction prefix as [|p prefix IH]; intros [|c s]; simpl;
    try discriminate.
  - intro H; injection H as <-. simpl. lia.
  - intro H; injection H as <-. simpl. lia.
  - destruct (N.eqb p c); [|discriminate]. intro H. apply IH in H. lia.
Qed.

Lemma scanstring_rest : forall s begin idx acc str i r,
  scanstring begin idx s acc = Scanned str i r ->
  (List.length r < List.length s)%nat.
Proof.
  intro s. remember (List.length s) as n eqn:Hn.
  assert (Hle : (List.length s <= n)%nat) by lia. clear Hn.
  revert s Hle. induction n as [|n IH]; intros s Hle begin idx acc str i r.
  - destruct s; [simpl; discriminate | simpl in Hle; lia].
  - destruct s as [|c t]; [simpl; discriminate|].
    simpl in Hle. cbn [scanstring].
    repeat (break_match; try discriminate).
    all: try (intro H; injection H as <- <- <-; simpl; lia).
    all: intro H; apply IH in H; subst; simpl in *; try lia.
Qed.

Lemma scanstring_fuel begin idx s acc :
  scanstring begin idx s acc <> OutOfFuel.
Proof.
  remember (List.length s) as n eqn:Hn.
  assert (Hle : (List.length s <= n)%nat) by lia. clear Hn.
  revert s Hle begin idx acc.
  induction n as [|n IH]; intros s Hle begin idx acc.
  - destruct s; [simpl; discriminate | simpl in Hle; lia].
  - destruct s as [|c t]; [simpl; discriminate|].
    simpl in Hle. cbn [scanstring].
    repeat (break_match; try discriminate).
    all: apply IH; subst; simpl in *; lia.
Qed.

Lemma match_number_rest idx s v i r :
  match_number idx s = Some (Scanned v i r) ->
  (List.length r <= List.length s)%nat.
Proof.
  unfold match_number.
  destruct (hd_error _) as [m|] eqn:E; [|discriminate].
  assert (I : In m (rmatch NUMBER_RE (MState idx None s []))).
  { destruct (rmatch _ _); [discriminate E|]. injection E as ->. now left. }
  apply rmatch_rest in I. simpl in I.
  repeat (break_match; try discriminate).
  all: intro H; injection H as <- <- <-; exact I.
Qed.

Lemma match_number_fuel idx s : match_number idx s <> Some OutOfFuel.
Proof.
  unfold match_number. repeat (break_match; try discriminate).
Qed.

Lemma scan_word_rest w v0 idx s v i r :
  scan_word w v0 idx s = Some (Scanned v i r) ->
  (List.length r <= List.length s)%nat.
Proof.
  unfold scan_word. destruct (starts_with (py w) s) eqn:E; [|discriminate].
  intro H; injection H as <- <- <-. now apply starts_with_rest in E.
Qed.

Lemma scan_constant_rest idx s v i r :
  scan_constant idx s = Scanned v i r ->
  (List.length r <= List.length s)%nat.
Proof.
  unfold scan_constant. cbn [first_of].
  repeat match goal with
    | |- context [match ?x with _ => _ end] =>
        let E := fresh "E" in
        destruct x as [[]|] eqn:E;
        try discriminate;
        try (intro H; injection H as <- <- <-;
             first [ now apply scan_word_rest in E
                   | now apply match_number_rest in E ])
    end.
Qed.

Lemma scan_constant_fuel idx s : scan_constant idx s <> OutOfFuel.
Proof.
  unfold scan_constant. cbn [first_of].
  repeat match goal with
    | |- context [match ?x with _ => _ end] =>
        let E := fresh "E" in
        destruct x as [[]|] eqn:E; try discriminate
    end.
  all: match goal with
       | E : match_number _ _ = Some OutOfFuel |- _ =>
           now apply match_number_fuel in E
       | E : scan_word _ _ _ _ = Some OutOfFuel |- _ =>
           unfold scan_word in E; destruct (starts_with _ _); discriminate
       end.
Qed.

Ltac rest_facts IH1 IH2 IH3 :=
  repeat match goal with
    | E : skip_ws _ _ = (_, _) |- _ => apply skip_ws_rest in E
    | E : scanstring _ _ _ _ = Scanned _ _ _ |- _ => apply scanstring_rest in E
    | E : scan_constant _ _ = Scanned _ _ _ |- _ =>
        apply scan_constant_rest in E
    | E : scan_once _ _ _ = Scanned _ _ _ |- _ => apply IH1 in E
    | E : object_loop _ _ _ _ = Scanned _ _ _ |- _ => apply IH2 in E
    | E : array_loop _ _ _ _ = Scanned _ _ _ |- _ => apply IH3 in E
    end.

Lemma scan_rest fuel :
  (forall i s v j r, scan_once fuel i s = Scanned v j r ->
     (List.length r <= List.length s)%nat) /\
  (forall pairs i s v j r, object_loop fuel pairs i s = Scanned v j r ->
     (List.length r <= List.length s)%nat) /\
  (forall items i s v j r, array_loop fuel items i s = Scanned v j r ->
     (List.length r <= List.length s)%nat).
Proof.
  induction fuel as [|f (IH1 & IH2 & IH3)].
  - repeat split; intros; discriminate.
  - repeat split.
    + intros i s v j r. cbn [scan_once].
      repeat (break_match; try discriminate).
      all: intro H; try (injection H as <- <- <-);
        rest_facts IH1 IH2 IH3; subst; cbn [List.length] in *; lia.
    + intros pairs i s v j r. cbn [object_loop].
      repeat (break_match; try discriminate).
      all: intro H; try (injection H as <- <- <-);
        rest_facts IH1 IH2 IH3; subst; cbn [List.length] in *; lia.
    + intros items i s v j r. cbn [array_loop].
      repeat (break_match; try discriminate).
      all: intro H; try (injection H as <- <- <-);
        rest_facts IH1 IH2 IH3; subst; cbn [List.length] in *; lia.
Qed.

(** The fuel of [json_loads] is never used up: the recursion of the decoder
    is bounded by the length of the document. *)
Lemma scan_fuel fuel :
  (forall i s, (2 * List.length s + 1 <= fuel)%nat ->
     scan_once fuel i s <> OutOfFuel) /\
  (forall pairs i s, (2 * List.length s + 2 <= fuel)%nat ->
     object_loop fuel pairs i s <> OutOfFuel) /\
  (forall items i s, (2 * List.length s + 2 <= fuel)%nat ->
     array_loop fuel items i s <> OutOfFuel).
Proof.
  induction fuel as [|f (IH1 & IH2 & IH3)].
  - repeat split; intros; lia.
  - pose proof (scan_rest f) as (R1 & R2 & R3).
    repeat split.
    + intros i s L. cbn [scan_once].
      repeat (break_match; try discriminate).
      all: try match goal with
             | E : scanstring _ _ _ _ = OutOfFuel |- _ =>
                 now apply scanstring_fuel in E
             end.
      all: try apply scan_constant_fuel.
      all: first [apply IH2 | apply IH3];
        rest_facts R1 R2 R3; subst; cbn [List.length] in *; lia.
    + intros pairs i s L. cbn [object_loop].
      repeat (break_match; try discriminate).
      all: try match goal with
             | E : scanstring _ _ _ _ = OutOfFuel |- _ =>
                 now apply scanstring_fuel in E
             end.
      all: try (apply IH2;
                rest_facts R1 R2 R3; subst; cbn [List.length] in *; lia).
      all: match goal with
           | E : scan_once _ _ _ = OutOfFuel |- _ =>
               exfalso; revert E; apply IH1;
               rest_facts R1 R2 R3; subst; cbn [List.length] in *; lia
           end.
    + intros items i s L. cbn [array_loop].
      repeat (break_match; try discriminate).
      all: try (apply IH3;
                rest_facts R1 R2 R3; subst; cbn [List.length] in *; lia).
      all: match goal with
           | E : scan_once _ _ _ = OutOfFuel |- _ =>
               exfalso; revert E; apply IH1;
               rest_facts R1 R2 R3; subst; cbn [List.length] in *; lia
           end.
Qed.

Lemma json_loads_fuel s i r :
  skip_ws 0 s = (i, r) -> scan_once (S (2 * List.length s)) i r <> OutOfFuel.
Proof.
  intro E. apply skip_ws_rest in E.
  apply (proj1 (scan_fuel (S (2 * List.length s)))). lia.
Qed.

Lemma object_loop_dict fuel : forall pairs i s v j r,
  object_loop fuel pairs i s = Scanned v j r -> exists d, v = PyDict d.
Proof.
  induction fuel as [|f IH]; intros pairs i s v j r; [discriminate|].
  cbn [object_loop].
  repeat (break_match; try discriminate).
  - intro H; injection H as <- <- <-. eauto.
  - apply IH.
Qed.

Lemma scan_once_object fuel i t v j r :
  scan_once fuel i (c_lbrace :: t) = Scanned v j r -> exists d, v = PyDict d.
Proof.
  destruct fuel as [|f]; [discriminate|].
  cbn [scan_once]. change (N.eqb c_lbrace 34) with false.
  change (N.eqb c_lbrace 123) with true. cbv iota.
  repeat (break_match; try discriminate).
  - intro H; injection H as <- <- <-. eauto.
  - apply object_loop_dict.
Qed.

Lemma json_loads_object t v :
  json_loads (c_lbrace :: t) = Ok v -> exists d, v = PyDict d.
Proof.
  unfold json_loads. change (skip_ws 0 (c_lbrace :: t)) with (0%nat, c_lbrace :: t).
  cbv iota beta.
  destruct (scan_once _ 0 (c_lbrace :: t)) eqn:E; try discriminate.
  apply scan_once_object in E.
  repeat (break_match; try discriminate). intro H; injection H as <-. exact E.
Qed.

(** Whatever [json.loads] raises derives from [Exception]. *)
Lemma json_loads_raises_Exception s e :
  json_loads s = Raise e -> is_Exception (exn_class_of e) = true.
Proof.
  unfold json_loads.
  repeat (break_match; try discriminate).
  all: intro H; injection H as <-; reflexivity.
Qed.

Lemma json_loads_no_recursion_error s :
  json_loads s <> Raise recursion_error.
Proof.
  unfold json_loads.
  destruct (skip_ws 0 s) as [i r] eqn:W.
  pose proof (json_loads_fuel s W) as F.
  repeat (break_match; try discriminate); try contradiction.
Qed.

(** ** Finding the braces *)

Lemma find_from_spec c s : forall i,
  find_from c i s = (-1)%Z /\ (0 <= i -> forall x, In x s -> N.eqb x c = false)%Z
  \/ exists pre post,
       s = pre ++ c :: post /\ find_from c i s = (i + Z.of_nat (List.length pre))%Z.
Proof.
  induction s as [|x t IH]; intro i; simpl.
  - left. split; [reflexivity|]. intros _ y [].
  - destruct (N.eqb x c) eqn:E.
    + right. apply N.eqb_eq in E. subst x. exists [], t. simpl.
      split; [reflexivity | lia].
    + destruct (IH (i + 1)%Z) as [[H1 H2] | (pre & post & -> & H)].
      * left. split; [exact H1|]. intros Hi y [<-|Hy]; [exact E|].
        apply H2; [lia | exact Hy].
      * right. exists (x :: pre), post. simpl. split; [reflexivity|].
        rewrite H. lia.
Qed.

Lemma py_slice_from_found s pre c post b :
  s = pre ++ c :: post ->
  py_slice s (Z.of_nat (List.length pre)) b = []
  \/ exists t, py_slice s (Z.of_nat (List.length pre)) b = c :: t.
Proof.
  intros ->. unfold py_slice.
  set (s := pre ++ c :: post).
  set (len := Z.of_nat (List.length s)).
  assert (Hlen : (Z.of_nat (List.length pre) < len)%Z).
  { subst len s. rewrite length_app. simpl. lia. }
  assert (Ha : clamp_index len (Z.of_nat (List.length pre))
               = Z.of_nat (List.length pre)).
  { unfold clamp_index.
    destruct (Z.ltb_spec (Z.of_nat (List.length pre)) 0); lia. }
  rewrite Ha, Nat2Z.id.
  subst s. rewrite skipn_app, skipn_all, Nat.sub_diag. simpl.
  destruct (Z.to_nat _); simpl; eauto.
Qed.

(** ** The parsing step *)

Lemma rfind_from_lower c s : forall i last,
  (-1 <= last)%Z -> (0 <= i)%Z -> (-1 <= rfind_from c i s last)%Z.
Proof.
  induction s as [|x t IH]; intros i last Hl Hi; simpl; [exact Hl|].
  apply IH; [destruct (N.eqb x c); lia | lia].
Qed.

(** C3.  On the reply with prose around a JSON object the parsing step
    takes the span from the first opening brace to the last closing brace
    and returns the parsed object, nested object included; on a reply
    without braces it returns the failure record that carries the reply. *)
Theorem parse_response_examples :
  let reply := pyq "Here is the data: {'a': 1, 'b': {'c': 2}} Thanks!" in
  py_slice reply (str_find reply c_lbrace) (str_rfind reply c_rbrace + 1)
    = pyq "{'a': 1, 'b': {'c': 2}}" /\
  parse_response reply
    = Ok (PyDict [(py "a", PyInt 1); (py "b", PyDict [(py "c", PyInt 2)])]) /\
  parse_response (py "no braces here")
    = Ok (PyDict [(py "error", PyStr (py "No JSON found in response"));
                  (py "raw", PyStr (py "no braces here"))]).
Proof. repeat split; vm_compute; reflexivity. Qed.

Lemma parse_response_cases (response : pystr) :
  exists d,
    parse_response response = Ok (PyDict d) /\
    (json_loads (py_slice response (str_find response c_lbrace)
                   (str_rfind response c_rbrace + 1)) = Ok (PyDict d)
     \/ exists error,
          d = [(py "error", PyStr error); (py "raw", PyStr response)]).
Proof.
  unfold parse_response, failure_record.
  assert (Hend : negb (str_rfind response c_rbrace + 1 =? -1)%Z = true).
  { pose proof (@rfind_from_lower c_rbrace response 0 (-1)) as H.
    unfold str_rfind. apply negb_true_iff, Z.eqb_neq. lia. }
  rewrite Hend, andb_true_r.
  unfold str_find.
  destruct (find_from_spec c_lbrace response 0)
    as [[-> _] | (pre & post & E & ->)].
  - simpl. eexists. split; [reflexivity|]. right. eauto.
  - replace (negb (0 + Z.of_nat (List.length pre) =? -1)%Z) with true
      by (symmetry; apply negb_true_iff, Z.eqb_neq; lia).
    rewrite Z.add_0_l.
    remember (str_rfind response c_rbrace + 1)%Z as b.
    destruct (@py_slice_from_found response pre c_lbrace post b E)
      as [S | [t S]]; rewrite S.
    + simpl. eexists. split; [reflexivity|]. right. eauto.
    + destruct (json_loads (c_lbrace :: t)) as [v|e] eqn:J.
      * destruct (json_loads_object _ J) as [d ->].
        simpl. exists d. split; [reflexivity|]. now left.
      * apply json_loads_raises_Exception in J.
        simpl. rewrite J. eexists. split; [reflexivity|]. right. eauto.
Qed.

Lemma parse_response_returns_dict (response : pystr) :
  exists d, parse_response response = Ok (PyDict d).
Proof.
  destruct (parse_response_cases response) as (d & P & _). eauto.
Qed.


(** ** Cleaning the dates and inferring the end date *)

Lemma key_eff_end : k_effective_date <> k_end_date.
Proof. discriminate. Qed.

Lemma key_end_eff : k_end_date <> k_effective_date.
Proof. discriminate. Qed.

Lemma key_eff_dur : k_effective_date <> k_duration.
Proof. discriminate. Qed.

Lemma key_end_dur : k_end_date <> k_duration.
Proof. discriminate. Qed.

Lemma coerced_cases v :
  (is_valid_date v = Ok true /\ coerced v = v) \/
  (is_valid_date v = Ok false /\ coerced v = PyNone).
Proof.
  unfold coerced. destruct (is_valid_date_returns v) as [[] ->]; auto.
Qed.

Lemma coerced_truthy v : truthy (coerced v) = negb (absent (coerced v)).
Proof.
  destruct (coerced_cases v) as [[V ->] | [_ ->]]; [|reflexivity].
  rewrite (valid_date_truthy _ V).
  apply is_valid_date_true_str in V as (s & -> & _). reflexivity.
Qed.

Lemma clean_date_spec d key :
  exists d',
    clean_date d key = Ok d' /\
    dict_get d' key = coerced (dict_get d key) /\
    (forall k, key <> k -> dict_get d' k = dict_get d k).
Proof.
  unfold clean_date, dict_contains.
  destruct (dict_lookup d key) as [v|] eqn:L.
  - unfold coerced.
    destruct (is_valid_date_returns (dict_get d key)) as [b ->]. simpl.
    eexists. split; [reflexivity|]. split.
    + rewrite dict_get_set_same. now destruct b.
    + intros k Hk. now apply dict_get_set_other.
  - exists d. split; [reflexivity|]. split; [|reflexivity].
    unfold dict_get. rewrite L. reflexivity.
Qed.

Lemma parse_duration_falsy v :
  truthy v = false -> exists e, parse_duration v = Raise e.
Proof.
  destruct v; simpl; try (intros _; eexists; reflexivity).
  destruct s; [|discriminate]. intros _. eexists. reflexivity.
Qed.

Section DatePolicy.

Variable pad_year : bool.
Variable library_add : pystr -> datetime -> result datetime.

Let add := add_duration_to_date pad_year library_add.
Let infer := infer_end_date pad_year library_add.
Let normalize := normalize_dates pad_year library_add.

Lemma add_duration_falsy eff dur :
  truthy dur = false -> inferred pad_year library_add eff dur = PyNone.
Proof.
  intro H. destruct (parse_duration_falsy dur H) as [e E].
  unfold inferred, add_duration_to_date.
  destruct (strptime eff); simpl; [|reflexivity]. now rewrite E.
Qed.

Lemma infer_end_date_spec d :
  exists d',
    infer d = Ok d' /\
    (forall k, k_end_date <> k -> dict_get d' k = dict_get d k) /\
    dict_get d' k_end_date =
      (if negb (truthy (dict_get d k_end_date))
          && truthy (dict_get d k_effective_date)
          && truthy (dict_get d k_duration)
       then match add (dict_get d k_effective_date) (dict_get d k_duration) with
            | Ok end_date => PyStr end_date
            | Raise _ => dict_get d k_end_date
            end
       else dict_get d k_end_date).
Proof.
  unfold infer, infer_end_date.
  destruct (negb (truthy (dict_get d k_end_date))
            && truthy (dict_get d k_effective_date)
            && truthy (dict_get d k_duration)).
  - fold add. destruct (add _ _) as [s|e]; simpl.
    + eexists. split; [reflexivity|]. split.
      * intros k Hk. now apply dict_get_set_other.
      * apply dict_get_set_same.
    + exists d. repeat split; reflexivity.
  - exists d. repeat split; reflexivity.
Qed.

Lemma infer_end_date_skips d :
  dict_get d k_duration = PyNone \/ dict_get d k_effective_date = PyNone ->
  infer d = Ok d.
Proof.
  unfold infer, infer_end_date. intros [-> | ->]; simpl;
    now rewrite ?andb_false_r.
Qed.

Lemma normalize_dates_spec d :
  exists d',
    normalize d = Ok d' /\
    dict_get d' k_effective_date = coerced (dict_get d k_effective_date) /\
    dict_get d' k_end_date =
      (if inference_fires d
       then inferred pad_year library_add
              (coerced (dict_get d k_effective_date)) (dict_get d k_duration)
       else coerced (dict_get d k_end_date)) /\
    (forall k, k_effective_date <> k -> k_end_date <> k ->
               dict_get d' k = dict_get d k).
Proof.
  unfold normalize, normalize_dates.
  destruct (clean_date_spec d k_effective_date) as (d1 & C1 & E1 & O1).
  rewrite C1. cbn [bind].
  destruct (clean_date_spec d1 k_end_date) as (d2 & C2 & E2 & O2).
  rewrite C2. cbn [bind].
  destruct (infer_end_date_spec d2) as (d3 & I & O3 & E3).
  fold infer. rewrite I. exists d3. split; [reflexivity|].
  rewrite (O1 _ key_eff_end) in E2.
  assert (Eeff : dict_get d2 k_effective_date
                 = coerced (dict_get d k_effective_date))
    by now rewrite (O2 _ key_end_eff).
  assert (Edur : dict_get d2 k_duration = dict_get d k_duration)
    by now rewrite (O2 _ key_end_dur), (O1 _ key_eff_dur).
  split; [now rewrite (O3 _ key_end_eff)|]. split.
  - rewrite E3, E2, Eeff, Edur, !coerced_truthy, negb_involutive.
    unfold inference_fires, inferred. fold add.
    destruct (absent (coerced (dict_get d k_end_date))) eqn:A;
      [|reflexivity].
    assert (N : coerced (dict_get d k_end_date) = PyNone)
      by (destruct (coerced (dict_get d k_end_date));
          try discriminate; reflexivity).
    rewrite N. cbn [andb].
    destruct (negb (absent (coerced (dict_get d k_effective_date))));
      [|reflexivity].
    cbn [andb].
    destruct (truthy (dict_get d k_duration)) eqn:T.
    + destruct (dict_get d k_duration); try discriminate T;
        cbn [absent negb]; now destruct (add _ _).
    + pose proof (add_duration_falsy
                    (coerced (dict_get d k_effective_date)) _ T) as F.
      unfold inferred in F. fold add in F. rewrite F.
      now destruct (absent (dict_get d k_duration)).
  - intros k H1 H2. now rewrite (O3 _ H2), (O2 _ H2), (O1 _ H1).
Qed.

End DatePolicy.

(** C6.  Adding the duration [P1Y6M] to the effective date [2020-01-01]
    gives [2021-07-01], by itself and as the inferred end date of a record;
    and when the duration or the effective date is absent the inference
    step returns the record as it is, so the end date stays absent and no
    error is signalled. *)
Theorem infer_end_date_example_and_absence
    (pad_year : bool) (library_add : pystr -> datetime -> result datetime) :
  add_duration_to_date pad_year library_add
    (PyStr (py "2020-01-01")) (PyStr (py "P1Y6M")) = Ok (py "2021-07-01") /\
  infer_end_date pad_year library_add
    [(k_effective_date, PyStr (py "2020-01-01"));
     (k_duration, PyStr (py "P1Y6M"))]
  = Ok [(k_effective_date, PyStr (py "2020-01-01"));
        (k_duration, PyStr (py "P1Y6M"));
        (k_end_date, PyStr (py "2021-07-01"))] /\
  (forall d,
     dict_get d k_duration = PyNone \/ dict_get d k_effective_date = PyNone ->
     infer_end_date pad_year library_add d = Ok d).
Proof.
  split; [|split].
  - destruct pad_year; vm_compute; reflexivity.
  - destruct pad_year; vm_compute; reflexivity.
  - apply infer_end_date_skips.
Qed.

Lemma infer_end_date_example_and_absence_witness :
  infer_end_date true (fun _ _ => Raise iso_error)
    [(k_effective_date, PyStr (py "2020-01-01"))]
  = Ok [(k_effective_date, PyStr (py "2020-01-01"))].
Proof.
  apply (proj2 (proj2 (infer_end_date_example_and_absence true
                         (fun _ _ => Raise iso_error)))).
  left. reflexivity.
Defined.

(** C7.  The date handling of [process_contract] returns for every record.
    In its result the effective date and the end date that failed
    [is_valid_date] are absent; the end date is the inferred one exactly
    when the end date is absent after that, the effective date is present
    and valid and a duration is present (an inference that cannot be
    computed leaves the end date absent); otherwise the end date is the
    validated one, so a valid end date is kept as it came. *)
Theorem normalize_dates_policy
    (pad_year : bool) (library_add : pystr -> datetime -> result datetime)
    (d : pydict) :
  exists d',
    normalize_dates pad_year library_add d = Ok d' /\
    dict_get d' k_effective_date = coerced (dict_get d k_effective_date) /\
    dict_get d' k_end_date =
      (if inference_fires d
       then inferred pad_year library_add
              (coerced (dict_get d k_effective_date)) (dict_get d k_duration)
       else coerced (dict_get d k_end_date)) /\
    (is_valid_date (dict_get d k_end_date) = Ok true ->
     dict_get d' k_end_date = dict_get d k_end_date).
Proof.
  destruct (normalize_dates_spec pad_year library_add d)
    as (d' & N & Eeff & Eend & _).
  exists d'. repeat split; try assumption.
  intro V. rewrite Eend. unfold inference_fires, coerced. rewrite V.
  apply is_valid_date_true_str in V as (s & -> & _). reflexivity.
Qed.

Lemma normalize_dates_policy_witness :
  exists d',
    normalize_dates true (fun _ _ => Raise iso_error)
      [(k_end_date, PyStr (py "2021-03-04"))] = Ok d' /\
    dict_get d' k_end_date = PyStr (py "2021-03-04").
Proof.
  destruct (normalize_dates_policy true (fun _ _ => Raise iso_error)
              [(k_end_date, PyStr (py "2021-03-04"))])
    as (d' & N & _ & _ & K).
  exists d'. split; [exact N|]. apply K. reflexivity.
Defined.

(** ** Every date the arithmetic returns is a day of the calendar *)

Lemma check_date_fields_ok y m d u :
  check_date_fields y m d = Ok u -> date_fields_ok y m d = true.
Proof.
  intro H.
  assert (N : datetime_new y m d = Ok (DateTime y m d 0))
    by (unfold datetime_new; now rewrite H).
  now apply datetime_new_ok in N.
Qed.

Lemma datetime_add_timedelta_ok t td t' :
  datetime_add_timedelta t td = Ok t' -> datetime_ok t' = true.
Proof.
  unfold datetime_add_timedelta. intro H.
  apply bind_ok_inv in H as (delta & _ & H).
  destruct ((0 <? delta / US_PER_DAY)%Z && (delta / US_PER_DAY <=? MAXORDINAL)%Z);
    [|discriminate].
  destruct (ord2ymd (delta / US_PER_DAY)) as [[y m] d].
  apply bind_ok_inv in H as (u & C & H). apply Ok_inj in H. subst t'.
  apply check_date_fields_ok in C.
  unfold datetime_ok. cbn [dt_year dt_month dt_day dt_us]. rewrite C.
  pose proof (Z.mod_pos_bound delta US_PER_DAY eq_refl) as B.
  apply andb_true_iff. split; [apply andb_true_iff; split; [reflexivity|]|].
  - apply Z.leb_le. lia.
  - apply Z.ltb_lt. unfold US_PER_DAY in *. lia.
Qed.

Lemma datetime_add_ok library_add t d t' :
  library_returns_dates library_add ->
  datetime_add library_add t d = Ok t' -> datetime_ok t' = true.
Proof.
  intros L. destruct d as [td | years months td | s]; cbn [datetime_add].
  - apply datetime_add_timedelta_ok.
  - intro H. apply bind_ok_inv in H as (u & _ & H).
    now apply datetime_add_timedelta_ok in H.
  - apply L.
Qed.

Lemma add_duration_to_date_ok pad_year library_add eff dur s :
  library_returns_dates library_add ->
  add_duration_to_date pad_year library_add eff dur = Ok s ->
  exists t, datetime_ok t = true /\ s = strftime pad_year t.
Proof.
  intros L H. unfold add_duration_to_date in H.
  apply bind_ok_inv in H as (date_obj & _ & H).
  apply bind_ok_inv in H as (duration & _ & H).
  apply bind_ok_inv in H as (t & A & H).
  apply Ok_inj in H. exists t. split; [|now symmetry].
  eapply datetime_add_ok; eassumption.
Qed.

Lemma coerced_end_date_ok pad_year v : end_date_ok pad_year (coerced v).
Proof.
  destruct (coerced_cases v) as [[V ->] | [_ ->]]; [|now left].
  pose proof V as V'. apply is_valid_date_true_str in V' as (s & -> & _).
  right. exists s. split; [reflexivity|]. now left.
Qed.

Lemma inferred_end_date_ok pad_year library_add eff dur :
  library_returns_dates library_add ->
  end_date_ok pad_year (inferred pad_year library_add eff dur).
Proof.
  intro L. unfold inferred.
  destruct (add_duration_to_date _ _ _ _) as [s|e] eqn:A; [|now left].
  eapply add_duration_to_date_ok in A as (t & T & ->); [|exact L].
  right. eexists. split; [reflexivity|].
  destruct pad_year.
  - left. apply strftime_accepted; auto.
  - destruct (Z.ltb_spec (dt_year t) 1000).
    + right. split; [reflexivity|]. exists t. auto.
    + left. apply strftime_accepted; auto.
Qed.

Lemma normalize_dates_end_date_ok pad_year library_add d d' :
  library_returns_dates library_add ->
  normalize_dates pad_year library_add d = Ok d' ->
  end_date_ok pad_year (dict_get d' k_end_date).
Proof.
  intros L N.
  destruct (normalize_dates_spec pad_year library_add d)
    as (d2 & N2 & _ & E & _).
  rewrite N in N2. apply Ok_inj in N2. subst d2. rewrite E.
  destruct (inference_fires d).
  - now apply inferred_end_date_ok.
  - apply coerced_end_date_ok.
Qed.

(** ** One contract *)

Section Runs.

Variable pad_year : bool.
Variable library_add : pystr -> datetime -> result datetime.
Variable gemma : nat -> pystr -> result pystr.

Let extract := extract_and_normalize pad_year library_add gemma.
Let one := item_outcome pad_year library_add gemma.
Let process := process_contract pad_year library_add gemma.
Let loop := process_loop pad_year library_add gemma.
Let seq := sequential_map pad_year library_add gemma.
Let prompt_of (c : contract) := extraction_prompt (text c).

Lemma extract_and_normalize_eq c w :
  extract c w = (one c (w_calls w), after_call w (prompt_of c)).
Proof.
  unfold extract, one, item_outcome, extract_and_normalize,
    extract_contract_structured, mbind, call_gemma, lift, after_call,
    prompt_of.
  cbn [w_calls w_permits w_trace].
  destruct (gemma (w_calls w) (extraction_prompt (text c))); cbn [fst];
    [|reflexivity].
  destruct (parse_response a); cbn [fst]; [|reflexivity].
  now destruct (bind _ _).
Qed.

Lemma item_outcome_cases c n :
  match gemma n (prompt_of c) with
  | Ok reply =>
      exists sd d,
        parse_response reply = Ok (PyDict sd) /\
        normalize_dates pad_year library_add
          (dict_set sd k_file_id (PyStr (file_id c))) = Ok d /\
        one c n = Done d /\
        dict_get d k_file_id = PyStr (file_id c)
  | Raise e => one c n = Raised e
  end.
Proof.
  unfold one, item_outcome, extract_and_normalize,
    extract_contract_structured, mbind, call_gemma, lift, prompt_of.
  cbn [w_calls w_permits w_trace].
  destruct (gemma n (extraction_prompt (text c))) as [reply|e];
    [|reflexivity].
  destruct (parse_response_returns_dict reply) as (sd & P).
  rewrite P. cbn [setitem bind].
  destruct (normalize_dates_spec pad_year library_add
              (dict_set sd k_file_id (PyStr (file_id c))))
    as (d & N & _ & _ & O).
  rewrite N. exists sd, d.
  split; [reflexivity|]. split; [exact N|]. split; [reflexivity|].
  rewrite O by discriminate. apply dict_get_set_same.
Qed.

Lemma item_outcome_not_blocked c n : one c n <> Blocked.
Proof.
  pose proof (item_outcome_cases c n) as H.
  destruct (gemma n (prompt_of c)).
  - destruct H as (sd & d & _ & _ & -> & _). discriminate.
  - rewrite H. discriminate.
Qed.

Lemma process_contract_eq c w :
  (0 < w_permits w)%Z ->
  process c w =
  (one c (w_calls w),
   World (S (w_calls w)) (w_permits w)
     (w_trace w ++ [EvAcquire; EvModelCall (prompt_of c); EvRelease])).
Proof.
  intro P. unfold process, process_contract, with_semaphore, acquire.
  apply Z.ltb_lt in P. rewrite P.
  fold extract. rewrite extract_and_normalize_eq.
  cbn [w_calls w_permits w_trace log].
  pose proof (item_outcome_not_blocked c (w_calls w)) as NB.
  destruct (one c (w_calls w)); try contradiction;
    unfold release, after_call, log;
    cbn [snd w_calls w_permits w_trace];
    rewrite <- !app_assoc; cbn [app];
    (replace (w_permits w - 1 + 1)%Z with (w_permits w) by lia);
    reflexivity.
Qed.

(** ** The loop of [process_all] against the sequential map *)

Lemma sequential_map_cons c rest ws :
  seq (c :: rest) ws =
  match one c (w_calls ws) with
  | Done r =>
      (outcome_map (cons r)
         (fst (seq rest (after_call ws (prompt_of c)))),
       snd (seq rest (after_call ws (prompt_of c))))
  | Raised e => (Raised e, after_call ws (prompt_of c))
  | Blocked => (Blocked, after_call ws (prompt_of c))
  end.
Proof.
  unfold seq. cbn [sequential_map]. unfold mbind at 1.
  fold extract. rewrite extract_and_normalize_eq.
  destruct (one c (w_calls ws)); try reflexivity.
  unfold mbind, mret. fold seq.
  now destruct (seq rest _) as [[rs|e|] ws'].
Qed.

Lemma process_loop_cons c rest acc w :
  (0 < w_permits w)%Z ->
  loop (c :: rest) acc w =
  let w' := World (S (w_calls w)) (w_permits w)
              (w_trace w ++ [EvAcquire; EvModelCall (prompt_of c); EvRelease])
  in
  match one c (w_calls w) with
  | Done r => loop rest (acc ++ [r]) w'
  | Raised e => (Raised e, w')
  | Blocked => (Blocked, w')
  end.
Proof.
  intro P. unfold loop. cbn [process_loop]. unfold mbind.
  fold process. rewrite process_contract_eq by exact P.
  now destruct (one c (w_calls w)).
Qed.

Lemma process_loop_vs_sequential cs : forall acc w ws,
  w_calls w = w_calls ws -> (0 < w_permits w)%Z ->
  exists added added_s,
    loop cs acc w =
      (outcome_map (app acc) (fst (seq cs ws)),
       World (w_calls (snd (seq cs ws))) (w_permits w) (w_trace w ++ added)) /\
    w_trace (snd (seq cs ws)) = w_trace ws ++ added_s /\
    model_calls added = model_calls added_s /\
    in_flight_within 1 0 added = true.
Proof.
  induction cs as [|c rest IH]; intros acc w ws C P.
  - exists [], []. unfold loop, seq. cbn. unfold mret. cbn.
    rewrite !app_nil_r, <- C. destruct w; repeat split.
  - rewrite process_loop_cons by exact P. rewrite sequential_map_cons.
    cbv zeta. rewrite <- C.
    destruct (one c (w_calls w)) as [r|e|] eqn:O.
    + set (w' := World (S (w_calls w)) (w_permits w) _).
      destruct (IH (acc ++ [r]) w' (after_call ws (prompt_of c)))
        as (added & added_s & L & T & MC & F).
      { unfold w', after_call, log. cbn. now rewrite C. }
      { exact P. }
      exists ([EvAcquire; EvModelCall (prompt_of c); EvRelease] ++ added),
        ([EvModelCall (prompt_of c)] ++ added_s).
      cbn [fst snd]. rewrite L. repeat split.
      * f_equal.
        -- destruct (fst (seq rest _)); cbn; try reflexivity.
           now rewrite <- app_assoc.
        -- unfold w'. cbn [w_permits w_trace]. now rewrite <- app_assoc.
      * rewrite T. unfold after_call, log. cbn [w_trace].
        now rewrite <- app_assoc.
      * unfold model_calls in *. cbn [app flat_map]. now rewrite MC.
      * exact F.
    + exists [EvAcquire; EvModelCall (prompt_of c); EvRelease],
        [EvModelCall (prompt_of c)].
      cbn [fst snd outcome_map]. unfold after_call, log.
      cbn [w_calls w_trace]. rewrite <- ?C. repeat split.
    + exists [EvAcquire; EvModelCall (prompt_of c); EvRelease],
        [EvModelCall (prompt_of c)].
      cbn [fst snd outcome_map]. unfold after_call, log.
      cbn [w_calls w_trace]. rewrite <- ?C. repeat split.
Qed.

Lemma sequential_map_not_blocked cs : forall ws, fst (seq cs ws) <> Blocked.
Proof.
  induction cs as [|c rest IH]; intro ws.
  - discriminate.
  - rewrite sequential_map_cons.
    pose proof (item_outcome_not_blocked c (w_calls ws)) as NB.
    destruct (one c (w_calls ws)); try contradiction; cbn [fst].
    + specialize (IH (after_call ws (prompt_of c))).
      destruct (fst (seq rest _)); try contradiction; discriminate.
    + discriminate.
Qed.

Lemma process_all_eq cs max_workers w :
  (1 <= max_workers)%Z ->
  process_all pad_year library_add gemma cs max_workers w =
  loop cs [] (World (w_calls w) max_workers (w_trace w)).
Proof.
  intro P. unfold process_all, mbind, Semaphore.
  destruct (Z.ltb_spec max_workers 0); [lia | reflexivity].
Qed.

Lemma outcome_map_app_nil A (o : outcome (list A)) :
  outcome_map (app []) o = o.
Proof. now destruct o. Qed.

Lemma process_all_vs_sequential cs max_workers w :
  (1 <= max_workers)%Z ->
  exists added added_s,
    process_all pad_year library_add gemma cs max_workers w =
      (fst (seq cs w),
       World (w_calls (snd (seq cs w))) max_workers (w_trace w ++ added)) /\
    w_trace (snd (seq cs w)) = w_trace w ++ added_s /\
    model_calls added = model_calls added_s /\
    in_flight_within 1 0 added = true.
Proof.
  intro P. rewrite process_all_eq by exact P.
  destruct (process_loop_vs_sequential cs []
              (World (w_calls w) max_workers (w_trace w)) w)
    as (added & added_s & L & T & MC & F); [reflexivity | cbn; lia |].
  exists added, added_s. rewrite L, outcome_map_app_nil. repeat split; auto.
Qed.

(** ** The sequential map, item by item *)

Lemma replies_ok_tail c rest first upto :
  replies_ok gemma (c :: rest) first (S upto) ->
  replies_ok gemma rest (S first) upto.
Proof.
  intros H i Hi. destruct (H (S i)) as [reply R]; [lia|].
  exists reply. cbn [nth] in R.
  now replace (S first + i)%nat with (first + S i)%nat by lia.
Qed.

Lemma sequential_map_all_ok cs : forall ws,
  replies_ok gemma cs (w_calls ws) (List.length cs) ->
  exists rs,
    fst (seq cs ws) = Done rs /\
    List.length rs = List.length cs /\
    (forall i, (i < List.length cs)%nat ->
       dict_get (nth i rs []) k_file_id
       = PyStr (file_id (nth i cs no_contract))).
Proof.
  induction cs as [|c rest IH]; intros ws H.
  - exists []. repeat split. intros i Hi. cbn in Hi. lia.
  - rewrite sequential_map_cons.
    destruct (H 0%nat) as [reply R]; [cbn; lia|].
    rewrite Nat.add_0_r in R. cbn [nth] in R.
    pose proof (item_outcome_cases c (w_calls ws)) as I.
    unfold prompt_of in I. rewrite R in I.
    destruct I as (sd & d & _ & _ & -> & Fid).
    destruct (IH (after_call ws (prompt_of c))) as (rs & S & Len & Ids).
    { apply replies_ok_tail with (c := c). exact H. }
    cbn [fst]. rewrite S. exists (d :: rs). cbn [outcome_map].
    repeat split.
    + cbn. now rewrite Len.
    + intros [|i] Hi; cbn [nth]; [exact Fid|].
      apply Ids. cbn in Hi. lia.
Qed.

Lemma sequential_map_first_failure cs : forall ws k e,
  (k < List.length cs)%nat ->
  replies_ok gemma cs (w_calls ws) k ->
  gemma (w_calls ws + k)
    (extraction_prompt (text (nth k cs no_contract))) = Raise e ->
  fst (seq cs ws) = Raised e /\
  w_calls (snd (seq cs ws)) = (w_calls ws + k + 1)%nat.
Proof.
  induction cs as [|c rest IH]; intros ws k e Hk H F.
  - cbn in Hk. lia.
  - rewrite sequential_map_cons.
    pose proof (item_outcome_cases c (w_calls ws)) as I.
    unfold prompt_of in I.
    destruct k as [|k].
    + rewrite Nat.add_0_r in F. cbn [nth] in F. rewrite F in I. rewrite I.
      cbn. split; [reflexivity | lia].
    + destruct (H 0%nat) as [reply R]; [lia|].
      rewrite Nat.add_0_r in R. cbn [nth] in R. rewrite R in I.
      destruct I as (sd & d & _ & _ & -> & _).
      destruct (IH (after_call ws (prompt_of c)) k e) as [S C].
      * cbn in Hk. lia.
      * apply replies_ok_tail with (c := c). exact H.
      * unfold after_call, log. cbn [w_calls]. cbn [nth] in F.
        now replace (S (w_calls ws) + k)%nat with (w_calls ws + S k)%nat
          by lia.
      * cbn [fst snd]. rewrite S, C. cbn. split; [reflexivity | lia].
Qed.

End Runs.

(** ** The emitted records *)

Lemma process_contract_done pad_year library_add gemma c w d w' :
  process_contract pad_year library_add gemma c w = (Done d, w') ->
  exists sd reply,
    gemma (w_calls w) (extraction_prompt (text c)) = Ok reply /\
    parse_response reply = Ok (PyDict sd) /\
    normalize_dates pad_year library_add
      (dict_set sd k_file_id (PyStr (file_id c))) = Ok d.
Proof.
  intro H.
  destruct (Z.ltb_spec 0 (w_permits w)) as [P|P].
  - rewrite process_contract_eq in H by exact P.
    injection H as H _.
    pose proof (@item_outcome_cases pad_year library_add gemma c (w_calls w))
      as I.
    destruct (gemma (w_calls w) (extraction_prompt (text c))) as [reply|e].
    + destruct I as (sd & d0 & Q & N & O & _).
      rewrite O in H. injection H as ->. exists sd, reply. auto.
    + rewrite I in H. discriminate.
  - unfold process_contract, with_semaphore, acquire in H.
    apply Z.ltb_ge in P. rewrite P in H. discriminate.
Qed.




(** ** [process_all] *)

(** C9.  With a limit of at least one, [process_all] returns what the
    sequential in-order map of the extraction returns, after the same
    model calls in the same order; the result is the same for every such
    limit; it never waits for ever; and between an acquire and the
    matching release no second extraction starts, so at most one is in
    flight at any time. *)
Theorem process_all_is_sequential_map
    (pad_year : bool) (library_add : pystr -> datetime -> result datetime)
    (gemma : nat -> pystr -> result pystr) (contracts : list contract)
    (max_workers : Z) (w : world) :
  (1 <= max_workers)%Z ->
  let run := process_all pad_year library_add gemma contracts max_workers w in
  let seq := sequential_map pad_year library_add gemma contracts w in
  fst run = fst seq /\
  fst run <> Blocked /\
  w_calls (snd run) = w_calls (snd seq) /\
  model_calls (w_trace (snd run)) = model_calls (w_trace (snd seq)) /\
  (exists added,
     w_trace (snd run) = w_trace w ++ added /\
     in_flight_within 1 0 added = true) /\
  (forall max_workers', (1 <= max_workers')%Z ->
     fst (process_all pad_year library_add gemma contracts max_workers' w)
     = fst run).
Proof.
  intros P run seq.
  destruct (@process_all_vs_sequential pad_year library_add gemma contracts
              max_workers w P) as (added & added_s & R & T & MC & F).
  subst run seq. rewrite R. cbn [fst snd w_calls w_trace].
  split; [reflexivity|]. split; [apply sequential_map_not_blocked|].
  split; [reflexivity|]. split; [|split].
  - rewrite T. unfold model_calls in *. rewrite !flat_map_app. now rewrite MC.
  - exists added. split; [reflexivity | exact F].
  - intros mw' P'.
    destruct (@process_all_vs_sequential pad_year library_add gemma contracts
                mw' w P') as (a' & s' & R' & _).
    now rewrite R'.
Qed.

Lemma process_all_is_sequential_map_witness :
  fst (process_all true example_library failing_for_B contracts_ABC 5
         example_world)
  = fst (sequential_map true example_library failing_for_B contracts_ABC
           example_world).
Proof.
  assert (P : (1 <= 5)%Z) by lia.
  exact (proj1 (@process_all_is_sequential_map true example_library
                  failing_for_B contracts_ABC 5 example_world P)).
Defined.

(** C1, as the source has it.  [process_all] has no handler around the
    model call.  When the call for the item at index [k] is the first to
    raise, that error leaves [process_all]: the items before it have been
    processed, the model has been called [k + 1] times, the items after it
    are never attempted and no list is returned.  When no call raises,
    [process_all] returns one record for each input, in input order, each
    carrying the [file_id] of its input. *)
Theorem process_all_propagates_model_errors
    (pad_year : bool) (library_add : pystr -> datetime -> result datetime)
    (gemma : nat -> pystr -> result pystr) (contracts : list contract)
    (max_workers : Z) (w : world) :
  (1 <= max_workers)%Z ->
  let run := process_all pad_year library_add gemma contracts max_workers w in
  (forall k e,
     (k < List.length contracts)%nat ->
     replies_ok gemma contracts (w_calls w) k ->
     gemma (w_calls w + k)
       (extraction_prompt (text (nth k contracts no_contract))) = Raise e ->
     fst run = Raised e /\ w_calls (snd run) = (w_calls w + k + 1)%nat) /\
  (replies_ok gemma contracts (w_calls w) (List.length contracts) ->
   exists results,
     fst run = Done results /\
     List.length results = List.length contracts /\
     forall i, (i < List.length contracts)%nat ->
       dict_get (nth i results []) k_file_id
       = PyStr (file_id (nth i contracts no_contract))).
Proof.
  intros P run.
  destruct (@process_all_vs_sequential pad_year library_add gemma contracts
              max_workers w P) as (added & added_s & R & _).
  subst run. rewrite R. cbn [fst snd w_calls]. split.
  - intros k e Hk Hok F.
    now apply sequential_map_first_failure.
  - intro Hok. now apply sequential_map_all_ok.
Qed.

Lemma process_all_propagates_model_errors_witness :
  fst (process_all true example_library failing_for_B contracts_ABC 5
         example_world)
  = Raised (Exn RuntimeError (py "Gemma API error: 500")) /\
  w_calls (snd (process_all true example_library failing_for_B contracts_ABC
                  5 example_world)) = 2%nat.
Proof.
  assert (P : (1 <= 5)%Z) by lia.
  apply (proj1 (@process_all_propagates_model_errors true example_library
                  failing_for_B contracts_ABC 5 example_world P) 1%nat).
  - vm_compute. lia.
  - intros i Hi. assert (i = 0)%nat as -> by lia. eexists. reflexivity.
  - reflexivity.
Defined.

(** The claim C1 as stated fails: with the model call for B raising, the
    batch [A, B, C] returns no list of three results; the error of B
    leaves [process_all] and C is never sent to the model. *)
Lemma process_all_batch_aborts :
  fst (process_all true example_library failing_for_B contracts_ABC 5
         example_world)
  = Raised (Exn RuntimeError (py "Gemma API error: 500")) /\
  model_calls
    (w_trace (snd (process_all true example_library failing_for_B
                     contracts_ABC 5 example_world)))
  = [extraction_prompt (py "text of A"); extraction_prompt (py "text of B")].
Proof. split; vm_compute; reflexivity. Qed.

(** ** Retrieval *)

(** C2.  Over an empty candidate set [best_match] is the error
    [EmptyIndex], whatever the query; it returns no pair, null or
    zero-valued.  Over a set that is not empty it returns a pair. *)
Theorem best_match_empty_index
    (candidate_id vector score : Type)
    (similarity : vector -> vector -> score)
    (score_ltb : score -> score -> bool) (query : vector) :
  best_match similarity score_ltb query (@nil (candidate_id * vector))
    = inl EmptyIndex /\
  (forall r : candidate_id * score,
     best_match similarity score_ltb query (@nil (candidate_id * vector))
     <> inr r) /\
  (forall (c : candidate_id * vector) rest, exists r,
     best_match similarity score_ltb query (c :: rest) = inr r).
Proof.
  split; [reflexivity|]. split.
  - intros r H. discriminate H.
  - intros [i v] rest. eexists. reflexivity.
Qed.
